(** * A booking-service backend: shallow embedding of its route handlers

    The repository holds four snapshots of one Express/Mongoose route file:
    [src/server.js] (two snapshots, the first one is lines 1-376),
    [src/unnamed/part_000] and [src/unnamed/part_001].  Three of them are
    embedded, each in a module of its own: [Server] (the first snapshot of
    server.js), [Part000], and [Part001] (its seeding block) with
    [Part001Routes] (its booking and user-info routes); what they share
    (JSON values, the handler monad, the Mongoose collections) comes first.
    The second snapshot of server.js (lines 377-756) is not embedded apart:
    its booking route (lines 670-710) is, line for line, the one of
    part_001.

    Conventions of the embedding.
    - A handler is a computation over the stored collections and the
      response object; [res.status(c).json(b)] is [respond c b], and a second
      call on a response that was already sent raises, as Node does
      (ERR_HTTP_HEADERS_SENT).
    - [await m.save()] either returns or raises a validation / duplicate-key
      error, decided by the schema written in the source.
    - A read of a collection fails only when its argument does not cast;
      the [catch] branches of the source are kept and are reached by the
      errors of [Err].
    - Random values ([bcrypt.genSaltSync], [crypto.randomBytes]) are inputs
      of the handler that draws them.
    - A request field that Mongoose casts to an ObjectId is an
      [Identity.t], and the password of a login request a [Password.t]: the
      field can be absent or hold a value of another kind, and the cast and
      bcrypt raise where the libraries do. *)

From Stdlib Require Import String Ascii List ZArith Bool Arith Lia.
Import ListNotations.
Open Scope string_scope.

Set Implicit Arguments.

(** ** JSON values, as [res.json] serialises them *)

Definition ObjectId := nat.

(** A JavaScript [Date]: a time value in milliseconds, or Invalid Date. *)
Inductive JsDate : Type :=
| ValidDate (ms : Z)
| InvalidDate.

(** [new Date(pickedDate)], the request's [pickedDate] being the time value
    it denotes, [None] when it denotes none (absent or unparseable). *)
Definition newDate (pickedDate : option Z) : JsDate :=
  match pickedDate with
  | Some ms => ValidDate ms
  | None => InvalidDate
  end.

#[local] Unset Elimination Schemes.
Inductive json : Type :=
| JNull
| JBool (b : bool)
| JNum (n : Z)
| JStr (s : string)
| JId (oid : ObjectId)          (* an ObjectId, written as its hex string *)
| JDate (ms : Z)                (* a valid Date, written as its ISO string *)
| JArr (items : list json)
| JObj (fields : list (string * json)).
#[local] Set Elimination Schemes.

Definition dateJson (d : JsDate) : json :=
  match d with
  | ValidDate ms => JDate ms
  | InvalidDate => JNull        (* JSON.stringify of an Invalid Date *)
  end.

(** Look a key up in the fields of an object. *)
Fixpoint assoc (k : string) (fields : list (string * json)) : option json :=
  match fields with
  | [] => None
  | (k', v) :: rest => if String.eqb k k' then Some v else assoc k rest
  end.

Definition field (k : string) (j : json) : option json :=
  match j with
  | JObj fields => assoc k fields
  | _ => None
  end.

Definition keys (j : json) : list string :=
  match j with
  | JObj fields => map fst fields
  | _ => []
  end.

(** A key whose value is [undefined] is left out by JSON.stringify. *)
Definition optField (k : string) (v : option json) : list (string * json) :=
  match v with
  | Some j => [(k, j)]
  | None => []
  end.

(** ** Errors a handler can meet *)

Inductive Err : Type :=
| ValidationError (paths : list string)   (* Mongoose: schema validation failed at these paths *)
| DuplicateKey (index : string)           (* MongoDB E11000 on a unique index *)
| CastError (path : string)               (* Mongoose: the value does not cast to the path's type *)
| IllegalArguments                        (* bcrypt: the data is missing or is not a string *)
| HeadersSent.                            (* Node: the response was already sent *)

(** [e.errors]: only a ValidationError has it. *)
Definition errorsOf (e : Err) : option json :=
  match e with
  | ValidationError paths => Some (JObj (map (fun p => (p, JStr "ValidatorError")) paths))
  | _ => None
  end.

(** The error object as it is serialised into a response. *)
Definition errJson (e : Err) : json :=
  match e with
  | ValidationError paths =>
      JObj (optField "errors" (errorsOf e) ++ [("name", JStr "ValidationError")])
  | DuplicateKey index =>
      JObj [("index", JStr index); ("code", JNum 11000)]
  | CastError path =>
      JObj [("name", JStr "CastError"); ("path", JStr path)]
  | IllegalArguments =>
      JObj []                   (* a plain Error has no enumerable property *)
  | HeadersSent =>
      JObj [("code", JStr "ERR_HTTP_HEADERS_SENT")]
  end.

(** ** The handler monad: collections, response object, exceptions *)

Record Response : Type := mkResponse { status : nat; body : json }.

Section Handler.
Variable Db : Type.

(** [sent] is what the client received ([None]: nothing yet);
    [rejections] are the errors that escaped an async handler. *)
Record World : Type := mkWorld {
  db : Db;
  sent : option Response;
  rejections : list Err
}.

Inductive Result (A : Type) : Type :=
| Ok (a : A)
| Throw (e : Err).

Definition M (A : Type) : Type := World -> Result A * World.

Definition ret {A} (a : A) : M A := fun w => (Ok a, w).

Definition bind {A B} (m : M A) (k : A -> M B) : M B :=
  fun w =>
    match m w with
    | (Ok a, w') => k a w'
    | (Throw _ e, w') => (Throw _ e, w')
    end.

Definition throw {A} (e : Err) : M A := fun w => (Throw _ e, w).

(** [try { m } catch (e) { h e }] *)
Definition try_catch {A} (m : M A) (h : Err -> M A) : M A :=
  fun w =>
    match m w with
    | (Ok a, w') => (Ok a, w')
    | (Throw _ e, w') => h e w'
    end.

Definition getDb : M Db := fun w => (Ok (db w), w).

Definition putDb (d : Db) : M unit :=
  fun w => (Ok tt, mkWorld d (sent w) (rejections w)).

(** [res.status(code).json(b)] *)
Definition respond (code : nat) (b : json) : M unit :=
  fun w =>
    match sent w with
    | None => (Ok tt, mkWorld (db w) (Some (mkResponse code b)) (rejections w))
    | Some _ => (Throw _ HeadersSent, w)
    end.

(** Calling an async function: an error it raises rejects its promise and
    does not reach the caller. *)
Definition async (m : M unit) : M unit :=
  fun w =>
    match m w with
    | (Ok _, w') => (Ok tt, w')
    | (Throw _ e, w') => (Ok tt, mkWorld (db w') (sent w') (rejections w' ++ [e]))
    end.

(** Express runs a route on a fresh response object. *)
Definition handle (route : M unit) (d : Db) : World :=
  snd (async route (mkWorld d None [])).

End Handler.

Arguments Ok {A} a.
Arguments Throw {A} e.
Arguments ret {Db A} a.
Arguments throw {Db A} e.
Arguments getDb {Db}.
Arguments mkWorld {Db} db sent rejections.

Declare Scope handler_scope.
Delimit Scope handler_scope with handler.
Notation "x <- m ;; k" := (bind m (fun x => k))
  (at level 61, m at next level, right associativity) : handler_scope.
Notation "m ;; k" := (bind m (fun _ => k))
  (at level 61, right associativity) : handler_scope.
Open Scope handler_scope.

(** ** Request fields that need not be what the route expects *)

(** A field read as an identity ([treatmentId]). *)
Module Identity.
Inductive t : Type :=
| Absent                     (* undefined or null *)
| Malformed (raw : string)   (* a value that does not cast to an ObjectId *)
| Id (oid : ObjectId).       (* a value that casts to this ObjectId *)
End Identity.

(** The [password] field of a login request. *)
Module Password.
Inductive t : Type :=
| Absent                     (* the key is missing *)
| Other (raw : json) (shown : string)
                             (* a value that is not a string, null included;
                                [shown] is the string express-validator
                                reads it as *)
| Text (s : string).

(** The string a validation chain tests. *)
Definition shown (p : t) : string :=
  match p with
  | Absent => ""
  | Other _ text => text
  | Text s => s
  end.

(** The value as an error of a validation chain reports it. *)
Definition value (p : t) : option json :=
  match p with
  | Absent => None
  | Other raw _ => Some raw
  | Text s => Some (JStr s)
  end.
End Password.

(** ** Documents and collections *)

(** A booking, as the object literal a handler builds (a key is present or
    not) and as a subdocument of [bookedTreatments].  Mongoose also gives a
    subdocument an [_id] of its own; no handler reads or writes it and it is
    left out. *)
Module Booking.
Record t : Type := mk {
    treatment : option ObjectId;
    bookedDate : option JsDate
  }.
End Booking.

Definition bookingJson (b : Booking.t) : json :=
  JObj (optField "treatment" (option_map JId (Booking.treatment b)) ++
        optField "bookedDate" (option_map dateJson (Booking.bookedDate b))).

(** [TreatmentSchema] of server.js (first snapshot) and part_000. *)
Module Treatment.
Record t : Type := mk {
    _id : ObjectId;
    name : string
  }.
End Treatment.

Definition treatmentJson (t : Treatment.t) : json :=
  JObj [("_id", JId (Treatment._id t)); ("name", JStr (Treatment.name t))].

(** [UserSchema].  [mobilePhone] is a Number in server.js and a String in
    part_000; [password] holds what the register handler stored there. *)
Module User.
Record t {Phone : Type} : Type := mk {
    _id : ObjectId;
    firstName : string;
    lastName : string;
    email : string;
    mobilePhone : Phone;
    password : string;
    accessToken : string;
    bookedTreatments : list Booking.t
  }.
Arguments t : clear implicits.
Arguments mk {Phone}.
End User.

Record Store {Phone : Type} : Type := mkStore {
  users : list (User.t Phone);
  treatments : list Treatment.t;
  nextId : ObjectId               (* the next fresh ObjectId *)
}.
Arguments Store : clear implicits.
Arguments mkStore {Phone}.

Fixpoint forEach {Db A} (l : list A) (f : A -> M Db unit) : M Db unit :=
  match l with
  | [] => ret tt
  | x :: rest => f x ;; forEach rest f
  end.

(** Definitions that are the same text in server.js and part_000. *)
Module Shared.
Section Models.
Context {Phone : Type}.
Variable phone_eqb : Phone -> Phone -> bool.
Variable phoneJson : Phone -> json.

Abbreviation Db := (Store Phone).
Abbreviation UserDoc := (User.t Phone).

(** [User.findOne(filter)]: the first document that matches. *)
Definition User_findOne (filter : UserDoc -> bool) : M Db (option UserDoc) :=
  d <- getDb ;; ret (find filter (users d)).

Definition User_findById (id : ObjectId) : M Db (option UserDoc) :=
  User_findOne (fun u => Nat.eqb (User._id u) id).

(** [Treatment.find()] *)
Definition Treatment_find : M Db (list Treatment.t) :=
  d <- getDb ;; ret (treatments d).

(** [Treatment.findById(id)]: an absent id matches nothing, and a value
    that does not cast to an ObjectId rejects the query. *)
Definition Treatment_findById (id : Identity.t) : M Db (option Treatment.t) :=
  match id with
  | Identity.Absent => ret None
  | Identity.Malformed _ => throw (CastError "_id")
  | Identity.Id i =>
      d <- getDb ;;
      ret (find (fun t => Nat.eqb (Treatment._id t) i) (treatments d))
  end.

(** [new Treatment({name}).save()]: the schema has no validator. *)
Definition Treatment_create (name : string) : M Db Treatment.t :=
  d <- getDb ;;
  let t := Treatment.mk (nextId d) name in
  putDb (mkStore (users d) (treatments d ++ [t]) (S (nextId d))) ;;
  ret t.

(** [new User(doc).save()], once the document passed validation: the
    unique indexes on [email] and [mobilePhone] reject a duplicate (the
    compound index on both is implied by either). *)
Definition User_insert (doc : ObjectId -> UserDoc) : M Db UserDoc :=
  d <- getDb ;;
  let u := doc (nextId d) in
  if existsb (fun x => User.email x =? User.email u) (users d) then
    throw (DuplicateKey "email_1")
  else if existsb (fun x => phone_eqb (User.mobilePhone x) (User.mobilePhone u)) (users d) then
    throw (DuplicateKey "mobilePhone_1")
  else
    putDb (mkStore (users d ++ [u]) (treatments d) (S (nextId d))) ;;
    ret u.

Fixpoint replaceById (u : UserDoc) (l : list UserDoc) : list UserDoc :=
  match l with
  | [] => []
  | x :: rest =>
      if Nat.eqb (User._id x) (User._id u) then u :: rest else x :: replaceById u rest
  end.

(** [user.save()] on a document that was read from the collection;
    [invalid] lists the paths at which its schema validation fails. *)
Definition User_save (invalid : list string) (u : UserDoc) : M Db unit :=
  match invalid with
  | [] =>
      d <- getDb ;;
      putDb (mkStore (replaceById u (users d)) (treatments d) (nextId d))
  | _ => throw (ValidationError invalid)
  end.

(** The whole document, as [res.json] writes a Mongoose document (the
    version key [__v] apart). *)
Definition userJson (u : UserDoc) : json :=
  JObj [("_id", JId (User._id u));
        ("firstName", JStr (User.firstName u));
        ("lastName", JStr (User.lastName u));
        ("email", JStr (User.email u));
        ("mobilePhone", phoneJson (User.mobilePhone u));
        ("password", JStr (User.password u));
        ("accessToken", JStr (User.accessToken u));
        ("bookedTreatments", JArr (map bookingJson (User.bookedTreatments u)))].

(** The filter [{accessToken: accessToken}].  Every stored user has a token
    (the schema default), so an absent header matches none. *)
Definition hasToken (authorization : option string) (u : UserDoc) : bool :=
  match authorization with
  | Some accessToken => User.accessToken u =? accessToken
  | None => false
  end.

(** [authenticateUser] (server.js 245-265, part_000 269-289).
    [authorization] is [req.header("Authorization")]; [next] is the route
    that follows, given [req.user]. *)
Definition authenticateUser (authorization : option string)
    (next : UserDoc -> M Db unit) : M Db unit :=
  try_catch
    (user <- User_findOne (hasToken authorization) ;;
     match user with
     | Some u => async (next u)
     | None =>
         respond 401 (JObj [("success", JBool false);
                            ("response", JStr "Please log in");
                            ("loggedOut", JBool true)])
     end)
    (fun e =>
       respond 500 (JObj [("success", JBool false); ("response", errJson e)])).

(** [app.get(PATHS.userInfo, authenticateUser, ...)]
    (server.js 333-344, part_000 361-372). *)
Definition userInfo (authorization : option string) : M Db unit :=
  authenticateUser authorization (fun user =>
    try_catch
      (let secretMessage := "This is your user information" in
       respond 200 (JObj [("success", JBool true);
                          ("message", JStr secretMessage);
                          ("user", userJson user)]))
      (fun e =>
         respond 500 (JObj [("success", JBool false); ("response", errJson e)]))).

(** [app.get(PATHS.treatments, ...)] (server.js 160-174, part_000 157-171). *)
Definition getTreatments : M Db unit :=
  try_catch
    (treatments <- Treatment_find ;;
     respond 200 (JObj [("success", JBool true);
                        ("treatments", JArr (map treatmentJson treatments))]))
    (fun error =>
       respond 500 (JObj [("success", JBool false);
                          ("message", JStr "Failed to retrieve treatments");
                          ("error", errJson error)])).

End Models.
End Shared.
Export Shared.

(** ** bcrypt and the random sources, as the handlers use them *)

Class Bcrypt : Type := {
  hashSync : string -> string -> string;     (* bcrypt.hashSync(data, salt) *)
  compareSync : string -> string -> bool     (* bcrypt.compareSync(data, encrypted) *)
}.

(** [bcrypt.compareSync(data, encrypted)] on a request field: bcrypt raises
    when the data is missing or is not a string. *)
Definition compareSyncField {Db} {bcrypt : Bcrypt} (data : Password.t) (encrypted : string)
  : M Db bool :=
  match data with
  | Password.Text s => ret (compareSync s encrypted)
  | _ => throw IllegalArguments
  end.

(** What one register request draws: [bcrypt.genSaltSync(10)] and the
    schema default [crypto.randomBytes(128).toString("hex")]. *)
Record Random : Type := mkRandom {
  genSaltSync : string;
  randomBytesHex : string
}.

(** [minlength: 2, maxlength: 30] on a required String path. *)
Definition nameOk (s : string) : bool :=
  Nat.leb 2 (String.length s) && Nat.leb (String.length s) 30.

Definition unless (ok : bool) (path : string) : list string :=
  if ok then [] else [path].

(** * server.js, first snapshot (lines 1-376) *)

Module Server.

Module RegisterBody.
Record t : Type := mk {
  firstName : string;
  lastName : string;
  email : string;
  mobilePhone : option Z;      (* the Number the value casts to, if any *)
  password : string
}.
End RegisterBody.

Module LoginBody.
Record t : Type := mk {
  email : string;
  password : Password.t
}.
End LoginBody.

Module BookBody.
Record t : Type := mk {
  treatmentId : Identity.t;
  pickedDate : option Z
}.
End BookBody.

Section Routes.
Context {bcrypt : Bcrypt}.

Abbreviation Db := (Store Z).
Abbreviation UserDoc := (User.t Z).

Definition phoneJson (n : Z) : json := JNum n.

(** The seeding block run when the module is loaded (lines 121-156). *)
Definition seedTreatments : list string :=
  ["Haircut"; "Hair Dye"; "Haircut and Dye"; "Hair styling"].

Definition createTreatments : M Db unit :=
  try_catch
    (existingTreatments <- Treatment_find ;;
     forEach seedTreatments (fun name =>
       let existingTreatment :=
         find (fun treatment => Treatment.name treatment =? name) existingTreatments in
       match existingTreatment with
       | Some _ => ret tt
       | None => _ <- Treatment_create name ;; ret tt
       end))
    (fun _ => ret tt).

Definition startup : M Db unit :=
  try_catch createTreatments (fun _ => ret tt).

(** The store after the seeding block ran on [d]. *)
Definition seeded (d : Db) : Db := db (handle startup d).

(** Paths of [UserSchema] at which a new document fails validation.  The
    custom [validatePhone] only rejects a value that is not a number, which
    a cast Number never is. *)
Definition invalidPaths (b : RegisterBody.t) (hash : string) : list string :=
  unless (nameOk (RegisterBody.firstName b)) "firstName" ++
  unless (nameOk (RegisterBody.lastName b)) "lastName" ++
  unless (negb (RegisterBody.email b =? "")) "email" ++
  unless (match RegisterBody.mobilePhone b with Some _ => true | None => false end)
         "mobilePhone" ++
  unless (negb (hash =? "")) "password".

(** [new User({firstName, lastName, email, mobilePhone, password: hash}).save()] *)
Definition User_create (b : RegisterBody.t) (hash : string) (rnd : Random)
  : M Db UserDoc :=
  match invalidPaths b hash, RegisterBody.mobilePhone b with
  | [], Some phone =>
      User_insert Z.eqb (fun id =>
        User.mk id (RegisterBody.firstName b) (RegisterBody.lastName b)
                (RegisterBody.email b) phone hash (randomBytesHex rnd) [])
  | paths, _ => throw (ValidationError paths)
  end.

(** [app.post(PATHS.register, ...)] (lines 177-212). *)
Definition register (rnd : Random) (body : RegisterBody.t) : M Db unit :=
  let password := RegisterBody.password body in
  (if Nat.ltb (String.length password) 15 || Nat.ltb 20 (String.length password)
   then respond 400 (JObj [("success", JBool false);
                           ("message", JStr "Password needs to be between 15 and 20 characters")])
   else ret tt) ;;
  try_catch
    (let salt := genSaltSync rnd in
     newUser <- User_create body (hashSync password salt) rnd ;;
     respond 201 (JObj [("success", JBool true);
                        ("response",
                         JObj [("firstName", JStr (User.firstName newUser));
                               ("lastName", JStr (User.lastName newUser));
                               ("email", JStr (User.email newUser));
                               ("mobilePhone", phoneJson (User.mobilePhone newUser));
                               ("id", JId (User._id newUser));
                               ("accessToken", JStr (User.accessToken newUser))])]))
    (fun e =>
       respond 400 (JObj ([("success", JBool false);
                           ("response", errJson e);
                           ("message", JStr "Could not create user")] ++
                          optField "errors" (errorsOf e)))).

(** [app.post(PATHS.login, ...)] (lines 214-242). *)
Definition login (body : LoginBody.t) : M Db unit :=
  let email := LoginBody.email body in
  let password := LoginBody.password body in
  try_catch
    (user <- User_findOne (fun u : UserDoc => User.email u =? email) ;;
     match user with
     | Some user =>
         matches <- compareSyncField password (User.password user) ;;
         if matches then
           respond 200 (JObj [("success", JBool true);
                              ("response",
                               JObj [("firstName", JStr (User.firstName user));
                                     ("lastName", JStr (User.lastName user));
                                     ("email", JStr (User.email user));
                                     ("mobilePhone", phoneJson (User.mobilePhone user));
                                     ("id", JId (User._id user));
                                     ("accessToken", JStr (User.accessToken user))])])
         else
           respond 400 (JObj [("success", JBool false);
                              ("response", JStr "Credentials do not match")])
     | None =>
         respond 400 (JObj [("success", JBool false);
                            ("response", JStr "Credentials do not match")])
     end)
    (fun e =>
       respond 500 (JObj [("success", JBool false); ("response", errJson e)])).

(** The subdocument schema of [bookedTreatments] (lines 98-105) declares
    [treatment] only: a key the schema does not declare is dropped when the
    object is pushed onto the array. *)
Definition castBooking (b : Booking.t) : Booking.t :=
  Booking.mk (Booking.treatment b) None.

(** [user.bookedTreatments.push(booking)] *)
Definition push (user : UserDoc) (booking : Booking.t) : UserDoc :=
  User.mk (User._id user) (User.firstName user) (User.lastName user)
          (User.email user) (User.mobilePhone user) (User.password user)
          (User.accessToken user)
          (User.bookedTreatments user ++ [castBooking booking]).

(** [app.post(PATHS.bookTreatment, authenticateUser, ...)] (lines 267-308). *)
Definition bookTreatment (authorization : option string) (body : BookBody.t)
  : M Db unit :=
  authenticateUser authorization (fun reqUser =>
    let treatmentId := BookBody.treatmentId body in
    let pickedDate := BookBody.pickedDate body in
    let userId := User._id reqUser in
    try_catch
      (user <- User_findById userId ;;
       treatment <- Treatment_findById treatmentId ;;
       match user, treatment with
       | Some user, Some treatment =>
           let booking :=
             Booking.mk (Some (Treatment._id treatment)) (Some (newDate pickedDate)) in
           User_save [] (push user booking) ;;
           respond 200 (JObj [("success", JBool true);
                              ("message", JStr "Treatment booked successfully");
                              ("booking", bookingJson booking)])
       | _, _ =>
           respond 404 (JObj [("success", JBool false);
                              ("message", JStr "User or treatment not found")])
       end)
      (fun error =>
         respond 500 (JObj [("success", JBool false);
                            ("message", JStr "Failed to book treatment");
                            ("error", errJson error)]))).

(** [populate("bookedTreatments.treatment")]: the reference is replaced by
    the treatment it names, or by null when there is none. *)
Definition populated (catalog : list Treatment.t) (b : Booking.t) : json :=
  JObj (optField "treatment"
          (option_map (fun id =>
             match find (fun t => Nat.eqb (Treatment._id t) id) catalog with
             | Some t => treatmentJson t
             | None => JNull
             end) (Booking.treatment b))).

(** [app.get(PATHS.bookedTreatment, authenticateUser, ...)] (lines 311-328). *)
Definition bookedTreatment (authorization : option string) : M Db unit :=
  authenticateUser authorization (fun user =>
    try_catch
      (catalog <- Treatment_find ;;
       respond 200 (JObj [("success", JBool true);
                          ("message", JStr "Booked treatments retrieved successfully");
                          ("bookedTreatments",
                           JArr (map (populated catalog) (User.bookedTreatments user)))]))
      (fun error =>
         respond 500 (JObj [("success", JBool false);
                            ("message", JStr "Failed to retrieve booked treatments");
                            ("error", errJson error)]))).

(** [app.get(PATHS.userInfo, authenticateUser, ...)] (lines 333-344). *)
Definition userInfo (authorization : option string) : M Db unit :=
  Shared.userInfo phoneJson authorization.

End Routes.
End Server.

(** * part_000: the snapshot with express-validator *)

(** validator.js, as the express-validator chains call it. *)
Class Validator : Type := {
  isEmail : string -> bool;
  isMobilePhone : string -> bool;
  normalizeEmail : string -> string
}.

Definition isDigit (c : ascii) : bool :=
  let n := nat_of_ascii c in Nat.leb 48 n && Nat.leb n 57.

Fixpoint allDigits (s : string) : bool :=
  match s with
  | EmptyString => true
  | String c rest => isDigit c && allDigits rest
  end.

Module Part000.

Module RegisterBody.
Record t : Type := mk {
  firstName : string;
  lastName : string;
  email : string;
  mobilePhone : string;
  password : string
}.
End RegisterBody.

Module LoginBody.
Record t : Type := mk {
  email : string;
  password : Password.t
}.
End LoginBody.

Module BookBody.
Record t : Type := mk {
  treatmentId : Identity.t;        (* sent by a client, never read (line 293) *)
  pickedDate : option Z
}.
End BookBody.

Section Routes.
Context {bcrypt : Bcrypt} {validator : Validator}.

Abbreviation Db := (Store string).
Abbreviation UserDoc := (User.t string).

Definition phoneJson (s : string) : json := JStr s.

(** [validatePhone]: [/^[0-9]{10,15}$/.test(phone)] (line 60). *)
Definition validatePhone (phone : string) : bool :=
  allDigits phone && Nat.leb 10 (String.length phone) && Nat.leb (String.length phone) 15.

(** The seeding block (lines 120-153). *)
Definition seedTreatments : list string :=
  ["Haircut"; "Hair Dye"; "Haircut and Dye"; "Hair Styling"].

Definition createTreatments : M Db unit :=
  try_catch
    (existingTreatments <- Treatment_find ;;
     forEach seedTreatments (fun name =>
       let existingTreatment :=
         find (fun treatment => Treatment.name treatment =? name) existingTreatments in
       match existingTreatment with
       | Some _ => ret tt
       | None => _ <- Treatment_create name ;; ret tt
       end))
    (fun _ => ret tt).

Definition startup : M Db unit :=
  try_catch createTreatments (fun _ => ret tt).

Definition seeded (d : Db) : Db := db (handle startup d).

(** One entry of [validationResult(req).array()]. *)
Definition validationError (path : string) (value : option json) (msg : string) : json :=
  JObj (optField "value" value ++
        [("msg", JStr msg); ("param", JStr path); ("location", JStr "body")]).

Definition check (ok : bool) (path : string) (value : option json) (msg : string)
  : list json :=
  if ok then [] else [validationError path value msg].

Definition lengthBetween (lo hi : nat) (s : string) : bool :=
  Nat.leb lo (String.length s) && Nat.leb (String.length s) hi.

(** The validation chains of the register route (lines 174-185). *)
Definition registerErrors (b : RegisterBody.t) : list json :=
  check (lengthBetween 2 30 (RegisterBody.firstName b)) "firstName"
        (Some (JStr (RegisterBody.firstName b))) "First name must be between 2 and 30 characters" ++
  check (lengthBetween 2 30 (RegisterBody.lastName b)) "lastName"
        (Some (JStr (RegisterBody.lastName b))) "Last name must be between 2 and 30 characters" ++
  check (isEmail (RegisterBody.email b)) "email"
        (Some (JStr (RegisterBody.email b))) "Invalid email address" ++
  check (isMobilePhone (RegisterBody.mobilePhone b)) "mobilePhone"
        (Some (JStr (RegisterBody.mobilePhone b))) "Invalid mobile phone number" ++
  check (lengthBetween 15 20 (RegisterBody.password b)) "password"
        (Some (JStr (RegisterBody.password b))) "Password needs to be between 15 and 20 characters".

(** Paths of [UserSchema] (lines 62-105) at which a new document fails. *)
Definition invalidPaths (firstName lastName email mobilePhone hash : string)
  : list string :=
  unless (nameOk firstName) "firstName" ++
  unless (nameOk lastName) "lastName" ++
  unless (negb (email =? "")) "email" ++
  unless (negb (mobilePhone =? "") && validatePhone mobilePhone) "mobilePhone" ++
  unless (negb (hash =? "")) "password".

Definition User_create (firstName lastName email mobilePhone hash : string)
    (rnd : Random) : M Db UserDoc :=
  match invalidPaths firstName lastName email mobilePhone hash with
  | [] =>
      User_insert String.eqb (fun id =>
        User.mk id firstName lastName email mobilePhone hash (randomBytesHex rnd) [])
  | paths => throw (ValidationError paths)
  end.

(** [app.post(PATHS.register, [...], ...)] (lines 174-223).  The chain on
    [email] ends in [normalizeEmail()], which rewrites [req.body.email]. *)
Definition register (rnd : Random) (body : RegisterBody.t) : M Db unit :=
  let errors := registerErrors body in
  match errors with
  | _ :: _ =>
      respond 400 (JObj [("success", JBool false); ("errors", JArr errors)])
  | [] =>
      let firstName := RegisterBody.firstName body in
      let lastName := RegisterBody.lastName body in
      let email := normalizeEmail (RegisterBody.email body) in
      let mobilePhone := RegisterBody.mobilePhone body in
      let password := RegisterBody.password body in
      try_catch
        (let salt := genSaltSync rnd in
         newUser <- User_create firstName lastName email mobilePhone
                                (hashSync password salt) rnd ;;
         respond 201 (JObj [("success", JBool true);
                            ("response",
                             JObj [("firstName", JStr (User.firstName newUser));
                                   ("lastName", JStr (User.lastName newUser));
                                   ("email", JStr (User.email newUser));
                                   ("mobilePhone", phoneJson (User.mobilePhone newUser));
                                   ("id", JId (User._id newUser));
                                   ("accessToken", JStr (User.accessToken newUser))])]))
        (fun e =>
           respond 400 (JObj ([("success", JBool false);
                               ("response", errJson e);
                               ("message", JStr "Could not create user")] ++
                              optField "errors" (errorsOf e))))
  end.

(** The validation chains of the login route (lines 226-231). *)
Definition loginErrors (b : LoginBody.t) : list json :=
  check (isEmail (LoginBody.email b)) "email"
        (Some (JStr (LoginBody.email b))) "Enter a valid email address" ++
  check (negb (Password.shown (LoginBody.password b) =? "")) "password"
        (Password.value (LoginBody.password b)) "Password cannot be empty".

(** [app.post(PATHS.login, [...], ...)] (lines 226-266). *)
Definition login (body : LoginBody.t) : M Db unit :=
  let errors := loginErrors body in
  match errors with
  | _ :: _ =>
      respond 400 (JObj [("success", JBool false); ("errors", JArr errors)])
  | [] =>
      let email := LoginBody.email body in
      let password := LoginBody.password body in
      try_catch
        (user <- User_findOne (fun u : UserDoc => User.email u =? email) ;;
         match user with
         | Some user =>
             matches <- compareSyncField password (User.password user) ;;
             if matches then
               respond 200 (JObj [("success", JBool true);
                                  ("response",
                                   JObj [("firstName", JStr (User.firstName user));
                                         ("lastName", JStr (User.lastName user));
                                         ("email", JStr (User.email user));
                                         ("mobilePhone", phoneJson (User.mobilePhone user));
                                         ("id", JId (User._id user));
                                         ("accessToken", JStr (User.accessToken user))])])
             else
               respond 400 (JObj [("success", JBool false);
                                  ("message", JStr "Invalid login credentials")])
         | None =>
             respond 400 (JObj [("success", JBool false);
                                ("message", JStr "Invalid login credentials")])
         end)
        (fun e =>
           respond 500 (JObj [("success", JBool false);
                              ("message", JStr "An error occurred while attempting to login");
                              ("error", errJson e)]))
  end.

(** The subdocument schema of [bookedTreatments] (lines 97-104) declares
    [bookedDate] only, a required Date. *)
Definition castBooking (b : Booking.t) : Booking.t :=
  Booking.mk None (Booking.bookedDate b).

Definition bookingOk (b : Booking.t) : bool :=
  match Booking.bookedDate b with
  | Some (ValidDate _) => true
  | _ => false
  end.

Definition push (user : UserDoc) (booking : Booking.t) : UserDoc :=
  User.mk (User._id user) (User.firstName user) (User.lastName user)
          (User.email user) (User.mobilePhone user) (User.password user)
          (User.accessToken user)
          (User.bookedTreatments user ++ [castBooking booking]).

(** [app.post(PATHS.bookTreatment, authenticateUser, ...)] (lines 292-331). *)
Definition bookTreatment (authorization : option string) (body : BookBody.t)
  : M Db unit :=
  authenticateUser authorization (fun reqUser =>
    let pickedDate := BookBody.pickedDate body in
    let userId := User._id reqUser in
    try_catch
      (user <- User_findById userId ;;
       match user with
       | None =>
           respond 404 (JObj [("success", JBool false);
                              ("message", JStr "User not found")])
       | Some user =>
           let booking := Booking.mk None (Some (newDate pickedDate)) in
           let user := push user booking in
           User_save (unless (forallb bookingOk (User.bookedTreatments user))
                             "bookedTreatments") user ;;
           respond 200 (JObj [("success", JBool true);
                              ("message", JStr "Treatment booked successfully");
                              ("booking", bookingJson booking)])
       end)
      (fun error =>
         respond 500 (JObj [("success", JBool false);
                            ("message", JStr "Failed to book treatment");
                            ("error", errJson error)]))).

(** [app.get(PATHS.bookedTreatment, authenticateUser, ...)] (lines 335-358). *)
Definition bookedTreatment (authorization : option string) : M Db unit :=
  authenticateUser authorization (fun user =>
    try_catch
      (let bookedTreatments :=
         map (fun booking =>
                JObj (optField "date" (option_map dateJson (Booking.bookedDate booking))))
             (User.bookedTreatments user) in
       respond 200 (JObj [("success", JBool true);
                          ("message", JStr "Booked treatments retrieved successfully");
                          ("bookedTreatments", JArr bookedTreatments)]))
      (fun error =>
         respond 500 (JObj [("success", JBool false);
                            ("message", JStr "Failed to retrieve booked treatments");
                            ("error", errJson error)]))).

(** [app.get(PATHS.userInfo, authenticateUser, ...)] (lines 361-372). *)
Definition userInfo (authorization : option string) : M Db unit :=
  Shared.userInfo phoneJson authorization.

End Routes.
End Part000.

(** * part_001: the earliest snapshot; its seeding block (lines 96-130) *)

Module Part001.

(** [TreatmentSchema]: four optional String paths. *)
Module Treatment.
Record t : Type := mk {
  _id : ObjectId;
  cut : option string;
  wash : option string;
  cutAndWash : option string;
  styling : option string
}.
End Treatment.

Record Db : Type := mkDb {
  treatments : list Treatment.t;
  nextId : ObjectId
}.

(** An element of the [treatments] array: the document but for its [_id]. *)
Definition treatments_data : list (ObjectId -> Treatment.t) :=
  [ (fun id => Treatment.mk id (Some "Haircut") None None None);
    (fun id => Treatment.mk id None (Some "Hair wash") None None);
    (fun id => Treatment.mk id None None (Some "Haircut and wash") None);
    (fun id => Treatment.mk id None None None (Some "Hair styling")) ].

(** [new Treatment(treatmentData).save()] *)
Definition Treatment_create (treatmentData : ObjectId -> Treatment.t) : M Db Treatment.t :=
  d <- getDb ;;
  let t := treatmentData (nextId d) in
  putDb (mkDb (treatments d ++ [t]) (S (nextId d))) ;;
  ret t.

(** [treatments.forEach(async (treatmentData) => {...})] (lines 121-130):
    every element is saved, whatever the collection holds. *)
Definition seed : M Db unit :=
  forEach treatments_data (fun treatmentData =>
    async (try_catch
             (_ <- Treatment_create treatmentData ;; ret tt)
             (fun _ => ret tt))).

Definition seeded (d : Db) : Db := db (handle seed d).

End Part001.

(** * part_001 and the second snapshot of server.js: booking and user-info

    The book-treatment route is the same text in part_001 (lines 236-276)
    and in the second snapshot of server.js (lines 670-710); the user-info
    route below is the one of part_001 (lines 279-299), which authenticates
    inline. *)

Module Part001Routes.

Record Db : Type := mkDb {
  users : list (User.t Z);
  treatments : list Part001.Treatment.t;
  nextId : ObjectId
}.

Module BookBody.
Record t : Type := mk {
  treatmentId : Identity.t
}.
End BookBody.

(** [User.findOne(filter)] *)
Definition User_findOne (filter : User.t Z -> bool) : M Db (option (User.t Z)) :=
  d <- getDb ;; ret (find filter (users d)).

Definition User_findById (id : ObjectId) : M Db (option (User.t Z)) :=
  User_findOne (fun u => Nat.eqb (User._id u) id).

(** [Treatment.findById(id)]: an absent id matches nothing, and a value
    that does not cast to an ObjectId rejects the query. *)
Definition Treatment_findById (id : Identity.t) : M Db (option Part001.Treatment.t) :=
  match id with
  | Identity.Absent => ret None
  | Identity.Malformed _ => throw (CastError "_id")
  | Identity.Id i =>
      d <- getDb ;;
      ret (find (fun t => Nat.eqb (Part001.Treatment._id t) i) (treatments d))
  end.

(** [user.save()]; the schema of [bookedTreatments] has no validator. *)
Definition User_save (u : User.t Z) : M Db unit :=
  d <- getDb ;;
  putDb (mkDb (replaceById u (users d)) (treatments d) (nextId d)).

(** [authenticateUser] (part_001 214-234, server.js 648-668). *)
Definition authenticateUser (authorization : option string)
    (next : User.t Z -> M Db unit) : M Db unit :=
  try_catch
    (user <- User_findOne (hasToken authorization) ;;
     match user with
     | Some u => async (next u)
     | None =>
         respond 401 (JObj [("success", JBool false);
                            ("response", JStr "Please log in");
                            ("loggedOut", JBool true)])
     end)
    (fun e =>
       respond 500 (JObj [("success", JBool false); ("response", errJson e)])).

(** The subdocument schema of [bookedTreatments] (part_001 84-89) declares
    [treatment], and the route writes nothing else. *)
Definition castBooking (b : Booking.t) : Booking.t :=
  Booking.mk (Booking.treatment b) None.

Definition push (user : User.t Z) (booking : Booking.t) : User.t Z :=
  User.mk (User._id user) (User.firstName user) (User.lastName user)
          (User.email user) (User.mobilePhone user) (User.password user)
          (User.accessToken user)
          (User.bookedTreatments user ++ [castBooking booking]).

(** [app.post(PATHS.bookTreatment, authenticateUser, ...)]
    (part_001 236-276, server.js 670-710). *)
Definition bookTreatment (authorization : option string) (body : BookBody.t)
  : M Db unit :=
  authenticateUser authorization (fun reqUser =>
    let treatmentId := BookBody.treatmentId body in
    let userId := User._id reqUser in
    try_catch
      (user <- User_findById userId ;;
       treatment <- Treatment_findById treatmentId ;;
       match user, treatment with
       | Some user, Some treatment =>
           let booking := Booking.mk (Some (Part001.Treatment._id treatment)) None in
           User_save (push user booking) ;;
           respond 200 (JObj [("success", JBool true);
                              ("message", JStr "Treatment booked successfully");
                              ("booking", bookingJson booking)])
       | _, _ =>
           respond 404 (JObj [("success", JBool false);
                              ("message", JStr "User or treatment not found")])
       end)
      (fun error =>
         respond 500 (JObj [("success", JBool false);
                            ("message", JStr "Failed to book treatment");
                            ("error", errJson error)]))).

(** [app.get(PATHS.userInfo, ...)] of part_001 (lines 279-299): no
    middleware, the token is looked up in the route. *)
Definition userInfo (authorization : option string) : M Db unit :=
  try_catch
    (user <- User_findOne (hasToken authorization) ;;
     match user with
     | Some _ =>
         let secretMessage := "This is your user information" in
         respond 200 (JObj [("secret", JStr secretMessage)])
     | None =>
         respond 401 (JObj [("success", JBool false);
                            ("response", JStr "Please log in");
                            ("loggedOut", JBool true)])
     end)
    (fun e =>
       respond 500 (JObj [("success", JBool false); ("response", errJson e)])).

End Part001Routes.

(** ** Stand-ins for the libraries, to run the handlers on concrete requests *)

(** Exactly [n] characters: [s], cut or filled with dots. *)
Fixpoint fit (n : nat) (s : string) : string :=
  match n with
  | O => ""
  | S n' =>
      match s with
      | EmptyString => String "."%char (fit n' "")
      | String c rest => String c (fit n' rest)
      end
  end.

(** bcrypt's output format: a 7-character prefix, 22 characters of salt and
    31 of digest. *)
Definition demoHash (data salt : string) : string :=
  "$2b$10$" ++ fit 22 salt ++ fit 31 data.

Definition demoBcrypt : Bcrypt := {|
  hashSync := demoHash;
  compareSync := fun data encrypted =>
    encrypted =? demoHash data (substring 7 22 encrypted)
|}.

Fixpoint contains (c : ascii) (s : string) : bool :=
  match s with
  | EmptyString => false
  | String c' rest => Ascii.eqb c c' || contains c rest
  end.

Definition demoValidator : Validator := {|
  isEmail := contains "@"%char;
  isMobilePhone := fun s => allDigits s && Nat.leb 7 (String.length s);
  normalizeEmail := fun s => s
|}.

Definition demoRandom : Random := mkRandom "saltsaltsaltsaltsalt22" "c0ffee".

Definition anna : User.t Z :=
  User.mk 1 "Anna" "Berg" "anna@example.com" 46701234567%Z
          (demoHash "correct horse 15" "saltsaltsaltsaltsalt22") "a1b2c3" [].

(** A server.js store: one user, the four seeded treatments. *)
Definition demoStore : Store Z :=
  mkStore [anna]
          [Treatment.mk 2 "Haircut"; Treatment.mk 3 "Hair Dye";
           Treatment.mk 4 "Haircut and Dye"; Treatment.mk 5 "Hair styling"]
          6.

(** Two register requests for server.js, alike but for the password. *)
Definition carl (password : string) : Server.RegisterBody.t :=
  Server.RegisterBody.mk "Carl" "Dahl" "carl@example.com" (Some 46700000000%Z) password.

Definition bea : User.t string :=
  User.mk 1 "Bea" "Lind" "bea@example.com" "0701234567"
          (demoHash "correct horse 15" "saltsaltsaltsaltsalt22") "d4e5f6" [].

(** A part_001 store: one user, the four treatments of its seeding block. *)
Definition demoStore001 : Part001Routes.Db :=
  Part001Routes.mkDb [anna] (Part001.treatments (Part001.seeded (Part001.mkDb [] 2))) 6.

(** A part_000 store. *)
Definition demoStore000 : Store string :=
  mkStore [bea]
          [Treatment.mk 2 "Haircut"; Treatment.mk 3 "Hair Dye";
           Treatment.mk 4 "Haircut and Dye"; Treatment.mk 5 "Hair Styling"]
          6.

(** * Vocabulary of the properties *)

(** The response of [authenticateUser] to a request it does not know. *)
Definition unauthenticated : Response :=
  mkResponse 401 (JObj [("success", JBool false);
                        ("response", JStr "Please log in");
                        ("loggedOut", JBool true)]).

(** The header is missing, or equals the stored token of no user. *)
Definition unknownToken {Phone} (d : Store Phone) (authorization : option string) : Prop :=
  forall u, In u (users d) -> authorization <> Some (User.accessToken u).

(** What a route that refused an unauthenticated request leaves behind:
    the 401 body with its flags, nothing else sent, the store as it was. *)
Definition refused {Phone} (d : Store Phone) (w : World (Store Phone)) : Prop :=
  db w = d /\
  exists r, sent w = Some r /\
    status r = 401 /\
    field "success" (body r) = Some (JBool false) /\
    field "loggedOut" (body r) = Some (JBool true) /\
    status r <> 200 /\ status r <> 500.

(** Identities are unique in the users collection (MongoDB's index on
    [_id]). *)
Definition wellFormed {Phone} (d : Store Phone) : Prop :=
  NoDup (map (@User._id Phone) (users d)).

(** The stored user with this identity, and the one with this token. *)
Definition userById {Phone} (d : Store Phone) (id : ObjectId) : option (User.t Phone) :=
  find (fun u => Nat.eqb (User._id u) id) (users d).

Definition userByToken {Phone} (d : Store Phone) (authorization : option string)
  : option (User.t Phone) :=
  find (hasToken authorization) (users d).

(** The catalog entry a request's [treatmentId] names, if any. *)
Definition treatmentById {Phone} (d : Store Phone) (treatmentId : Identity.t)
  : option Treatment.t :=
  match treatmentId with
  | Identity.Id i => find (fun t => Nat.eqb (Treatment._id t) i) (treatments d)
  | _ => None
  end.

(** The field is absent or casts to an ObjectId. *)
Definition castable (treatmentId : Identity.t) : Prop :=
  forall raw, treatmentId <> Identity.Malformed raw.

(** The identity names no treatment of the catalog. *)
Definition notInCatalog {Phone} (d : Store Phone) (treatmentId : Identity.t) : Prop :=
  forall t, In t (treatments d) -> treatmentId <> Identity.Id (Treatment._id t).

(** The answer of server.js to a booking it cannot resolve. *)
Definition notFound : Response :=
  mkResponse 404 (JObj [("success", JBool false);
                        ("message", JStr "User or treatment not found")]).

(** The answer of a successful booking. *)
Definition booked (booking : Booking.t) : Response :=
  mkResponse 200 (JObj [("success", JBool true);
                        ("message", JStr "Treatment booked successfully");
                        ("booking", bookingJson booking)]).

(** bcrypt's hashes are 60 characters long. *)
Definition bcryptFormat (bcrypt : Bcrypt) : Prop :=
  forall data salt, String.length (hashSync data salt) = 60.

(** A register request of server.js that [UserSchema] and the unique
    indexes accept: names of 2 to 30 characters, an email, a phone that is
    a Number, neither of them stored already. *)
Definition acceptedBySchema (d : Store Z) (req : Server.RegisterBody.t) (phone : Z) : Prop :=
  nameOk (Server.RegisterBody.firstName req) = true /\
  nameOk (Server.RegisterBody.lastName req) = true /\
  Server.RegisterBody.email req <> "" /\
  Server.RegisterBody.mobilePhone req = Some phone /\
  (forall u, In u (users d) -> User.email u <> Server.RegisterBody.email req) /\
  (forall u, In u (users d) -> User.mobilePhone u <> phone).

(** The user document a register request creates. *)
Definition registered {bcrypt : Bcrypt} (d : Store Z) (rnd : Random)
    (req : Server.RegisterBody.t) (phone : Z) : User.t Z :=
  User.mk (nextId d)
          (Server.RegisterBody.firstName req) (Server.RegisterBody.lastName req)
          (Server.RegisterBody.email req) phone
          (hashSync (Server.RegisterBody.password req) (genSaltSync rnd))
          (randomBytesHex rnd) [].

(** The answer of server.js to a password of the wrong length. *)
Definition passwordLength : Response :=
  mkResponse 400 (JObj [("success", JBool false);
                        ("message", JStr "Password needs to be between 15 and 20 characters")]).

(** The 201 answer to [u]'s registration. *)
Definition created (u : User.t Z) : Response :=
  mkResponse 201
    (JObj [("success", JBool true);
           ("response",
            JObj [("firstName", JStr (User.firstName u));
                  ("lastName", JStr (User.lastName u));
                  ("email", JStr (User.email u));
                  ("mobilePhone", JNum (User.mobilePhone u));
                  ("id", JId (User._id u));
                  ("accessToken", JStr (User.accessToken u))])]).

(** The stored user with this email. *)
Definition userByEmail {Phone} (d : Store Phone) (email : string) : option (User.t Phone) :=
  find (fun u => User.email u =? email) (users d).

(** The answers of the two login routes to credentials they reject. *)
Definition credentialsDoNotMatch : Response :=
  mkResponse 400 (JObj [("success", JBool false);
                        ("response", JStr "Credentials do not match")]).

Definition invalidLoginCredentials : Response :=
  mkResponse 400 (JObj [("success", JBool false);
                        ("message", JStr "Invalid login credentials")]).

(** [j] carries every path of the stored document [u], each with its stored
    value. *)
Definition wholeDocument {Phone} (phoneJson : Phone -> json) (u : User.t Phone) (j : json)
  : Prop :=
  keys j = ["_id"; "firstName"; "lastName"; "email"; "mobilePhone"; "password";
            "accessToken"; "bookedTreatments"] /\
  field "_id" j = Some (JId (User._id u)) /\
  field "firstName" j = Some (JStr (User.firstName u)) /\
  field "lastName" j = Some (JStr (User.lastName u)) /\
  field "email" j = Some (JStr (User.email u)) /\
  field "mobilePhone" j = Some (phoneJson (User.mobilePhone u)) /\
  field "password" j = Some (JStr (User.password u)) /\
  field "accessToken" j = Some (JStr (User.accessToken u)) /\
  field "bookedTreatments" j = Some (JArr (map bookingJson (User.bookedTreatments u))).

(** The invariant of a store the routes built: identities are unique and
    older than the next fresh one. *)
Definition consistent {Phone} (d : Store Phone) : Prop :=
  wellFormed d /\ Forall (fun u => User._id u < nextId d) (users d).

(** A part_000 register request that passes every link of the validation
    chain of the route. *)
Definition chainAccepts {validator : Validator} (req : Part000.RegisterBody.t) : Prop :=
  Part000.lengthBetween 2 30 (Part000.RegisterBody.firstName req) = true /\
  Part000.lengthBetween 2 30 (Part000.RegisterBody.lastName req) = true /\
  isEmail (Part000.RegisterBody.email req) = true /\
  isMobilePhone (Part000.RegisterBody.mobilePhone req) = true /\
  Part000.lengthBetween 15 20 (Part000.RegisterBody.password req) = true.

(** The user document a part_000 register request creates: the email is
    the normalised one. *)
Definition registered000 {bcrypt : Bcrypt} {validator : Validator}
    (d : Store string) (rnd : Random) (req : Part000.RegisterBody.t) : User.t string :=
  User.mk (nextId d)
          (Part000.RegisterBody.firstName req) (Part000.RegisterBody.lastName req)
          (normalizeEmail (Part000.RegisterBody.email req))
          (Part000.RegisterBody.mobilePhone req)
          (hashSync (Part000.RegisterBody.password req) (genSaltSync rnd))
          (randomBytesHex rnd) [].

(** What of a user document the booking route has no business with: all
    but [bookedTreatments]. *)
Definition credentials {Phone} (u : User.t Phone)
  : ObjectId * string * string * string * Phone * string * string :=
  (User._id u, User.firstName u, User.lastName u, User.email u, User.mobilePhone u,
   User.password u, User.accessToken u).

(** [b] is [a] with bookings added at the end, if any. *)
Definition grownFrom {Phone} (a b : User.t Phone) : Prop :=
  credentials b = credentials a /\
  exists added, User.bookedTreatments b = (User.bookedTreatments a ++ added)%list.

(** The 200 answer of a login route for the stored user [u]. *)
Definition loggedIn {Phone} (phoneJson : Phone -> json) (u : User.t Phone) : Response :=
  mkResponse 200
    (JObj [("success", JBool true);
           ("response",
            JObj [("firstName", JStr (User.firstName u));
                  ("lastName", JStr (User.lastName u));
                  ("email", JStr (User.email u));
                  ("mobilePhone", phoneJson (User.mobilePhone u));
                  ("id", JId (User._id u));
                  ("accessToken", JStr (User.accessToken u))])]).

(** The answers of the two login routes when bcrypt raises. *)
Definition loginError : Response :=
  mkResponse 500 (JObj [("success", JBool false);
                        ("response", errJson IllegalArguments)]).

Definition loginError000 : Response :=
  mkResponse 500 (JObj [("success", JBool false);
                        ("message", JStr "An error occurred while attempting to login");
                        ("error", errJson IllegalArguments)]).

(** The password field holds no string: it is absent or of another kind. *)
Definition notAString (password : Password.t) : Prop :=
  forall s, password <> Password.Text s.

(** * Properties *)

(** ** The monad and the collections *)

Lemma find_absent {A} (f : A -> bool) (l : list A) :
  (forall x, In x l -> f x = false) -> find f l = None.
Proof.
  induction l as [|x l IH]; intros Hall; simpl; [reflexivity|].
  rewrite (Hall x (or_introl eq_refl)).
  apply IH. intros y Hy. apply Hall. now right.
Qed.

Lemma async_ok {Db} (m : M Db unit) (w : World Db) :
  fst (async m w) = Ok tt.
Proof.
  unfold async. destruct (m w) as [[[]|e] w']; reflexivity.
Qed.

Section Authentication.
Context {Phone : Type}.
Implicit Types (d : Store Phone) (u : User.t Phone).

Lemma hasToken_unknown d authorization :
  unknownToken d authorization ->
  find (hasToken authorization) (users d) = None.
Proof.
  intros Hunknown. apply find_absent. intros u Hu.
  specialize (Hunknown u Hu).
  destruct authorization as [t|]; simpl; [|reflexivity].
  destruct (String.eqb_spec (User.accessToken u) t) as [E|]; [|reflexivity].
  exfalso. apply Hunknown. now rewrite E.
Qed.

(** A request without the header is unknown to every store. *)
Lemma missing_header_unknown d : unknownToken d None.
Proof. intros u _. discriminate. Qed.

(** An unknown token stops the chain: the route behind the middleware does
    not run, whatever it is. *)
Lemma authenticateUser_unknown d authorization (next : User.t Phone -> M (Store Phone) unit) :
  unknownToken d authorization ->
  handle (authenticateUser authorization next) d = mkWorld d (Some unauthenticated) [].
Proof.
  intros Hunknown.
  unfold handle, async, authenticateUser, try_catch, bind, User_findOne, getDb, ret.
  simpl. rewrite (hasToken_unknown Hunknown). reflexivity.
Qed.

(** A known token hands the request, with its user, to the route. *)
Lemma authenticateUser_known d authorization u (next : User.t Phone -> M (Store Phone) unit) :
  find (hasToken authorization) (users d) = Some u ->
  handle (authenticateUser authorization next) d = handle (next u) d.
Proof.
  intros Hfind.
  unfold handle, authenticateUser, try_catch, bind, User_findOne, getDb, ret.
  unfold async at 1. simpl. rewrite Hfind.
  pose proof (async_ok (next u) (mkWorld d None [])) as Hok.
  destruct (async (next u) (mkWorld d None [])) as [r w']. simpl in Hok. subst r.
  reflexivity.
Qed.

Lemma refused_unauthenticated d : refused d (mkWorld d (Some unauthenticated) []).
Proof.
  split; [reflexivity|].
  exists unauthenticated. repeat split; simpl; discriminate.
Qed.

End Authentication.

(** C1. On every authenticated endpoint of server.js and of part_000
    (book-treatment, booked-treatments, user-info), a request whose
    Authorization header is missing or equals no stored accessToken is
    answered by the middleware with 401, [success: false] and
    [loggedOut: true]; the answer is neither a 200 nor a 500 and the store is
    untouched. *)
Theorem unauthenticated_request_refused
    (d : Store Z) (d0 : Store string) (authorization : option string)
    (body : Server.BookBody.t) (body0 : Part000.BookBody.t) :
  unknownToken d authorization ->
  unknownToken d0 authorization ->
  (refused d (handle (Server.bookTreatment authorization body) d) /\
   refused d (handle (Server.bookedTreatment authorization) d) /\
   refused d (handle (Server.userInfo authorization) d)) /\
  (refused d0 (handle (Part000.bookTreatment authorization body0) d0) /\
   refused d0 (handle (Part000.bookedTreatment authorization) d0) /\
   refused d0 (handle (Part000.userInfo authorization) d0)).
Proof.
  intros Hunknown Hunknown0.
  unfold Server.bookTreatment, Server.bookedTreatment, Server.userInfo,
    Part000.bookTreatment, Part000.bookedTreatment, Part000.userInfo,
    Shared.userInfo.
  rewrite !(authenticateUser_unknown _ Hunknown).
  rewrite !(authenticateUser_unknown _ Hunknown0).
  pose proof (refused_unauthenticated d).
  pose proof (refused_unauthenticated d0).
  tauto.
Qed.

Lemma unauthenticated_request_refused_witness :
  unknownToken demoStore (Some "garbage") /\
  refused demoStore (handle (Server.userInfo (Some "garbage")) demoStore) /\
  refused demoStore000 (handle (Part000.bookTreatment (Some "garbage")
                                  (Part000.BookBody.mk Identity.Absent None)) demoStore000).
Proof.
  assert (H : unknownToken demoStore (Some "garbage")).
  { intros u [<-|[]]; discriminate. }
  assert (H0 : unknownToken demoStore000 (Some "garbage")).
  { intros u [<-|[]]; discriminate. }
  pose proof (unauthenticated_request_refused
                (Server.BookBody.mk Identity.Absent None) (Part000.BookBody.mk Identity.Absent None) H H0)
    as [[_ [_ Hinfo]] [Hbook _]].
  exact (conj H (conj Hinfo Hbook)).
Defined.

(** ** The users collection *)

Section Collection.
Context {Phone : Type}.
Implicit Types (u : User.t Phone) (l : list (User.t Phone)).

Lemma replaceById_ids u l :
  map (@User._id Phone) (replaceById u l) = map (@User._id Phone) l.
Proof.
  induction l as [|x l IH]; simpl; [reflexivity|].
  destruct (Nat.eqb_spec (User._id x) (User._id u)) as [E|_]; simpl.
  - now rewrite E.
  - now rewrite IH.
Qed.

Lemma find_by_id u l :
  NoDup (map (@User._id Phone) l) -> In u l ->
  find (fun x => Nat.eqb (User._id x) (User._id u)) l = Some u.
Proof.
  induction l as [|x l IH]; simpl; intros Hnodup Hin; [contradiction|].
  inversion Hnodup as [|? ? Hfresh Hrest]; subst.
  destruct Hin as [->|Hin].
  - now rewrite Nat.eqb_refl.
  - destruct (Nat.eqb_spec (User._id x) (User._id u)) as [E|_]; [|now apply IH].
    exfalso. apply Hfresh. rewrite E. now apply in_map.
Qed.

(** Saving a changed copy of the document a filter finds: the same filter
    now finds the copy. *)
Lemma find_replaceById (f : User.t Phone -> bool) u u' l :
  NoDup (map (@User._id Phone) l) ->
  find f l = Some u ->
  User._id u' = User._id u ->
  f u' = true ->
  find f (replaceById u' l) = Some u'.
Proof.
  intros Hnodup Hfind Hid Hf.
  induction l as [|x l IH]; simpl in *; [discriminate|].
  inversion Hnodup as [|? ? Hfresh Hrest]; subst.
  destruct (Nat.eqb_spec (User._id x) (User._id u')) as [E|NE]; simpl.
  - now rewrite Hf.
  - destruct (f x) eqn:Hfx.
    + exfalso. apply NE. injection Hfind as ->. now symmetry.
    + now apply IH.
Qed.

(** ... and the documents with another identity stay as they were. *)
Lemma find_replaceById_other u' l id :
  id <> User._id u' ->
  find (fun x => Nat.eqb (User._id x) id) (replaceById u' l) =
  find (fun x => Nat.eqb (User._id x) id) l.
Proof.
  intros Hother.
  induction l as [|x l IH]; simpl; [reflexivity|].
  destruct (Nat.eqb_spec (User._id x) (User._id u')) as [E|NE]; simpl.
  - destruct (Nat.eqb_spec (User._id u') id) as [E'|_]; [now elim Hother|].
    destruct (Nat.eqb_spec (User._id x) id) as [E'|_]; [|reflexivity].
    elim Hother. now rewrite <- E', E.
  - now rewrite IH.
Qed.

Lemma userByToken_userById (d : Store Phone) authorization u :
  wellFormed d ->
  userByToken d authorization = Some u ->
  userById d (User._id u) = Some u.
Proof.
  intros Hwf Hfind. apply find_by_id; [exact Hwf|].
  now apply find_some in Hfind.
Qed.

End Collection.

(** ** Booking (server.js 267-308) *)

Lemma treatmentById_absent {Phone} (d : Store Phone) treatmentId :
  notInCatalog d treatmentId -> treatmentById d treatmentId = None.
Proof.
  intros Habsent. destruct treatmentId as [|raw|i]; simpl; try reflexivity.
  apply find_absent. intros t Ht.
  destruct (Nat.eqb_spec (Treatment._id t) i) as [E|]; [|reflexivity].
  exfalso. apply (Habsent t Ht). now rewrite E.
Qed.

(** The route behind the middleware, on an identity that casts and that it
    does not find. *)
Lemma bookTreatment_not_found (d : Store Z) authorization u body :
  userByToken d authorization = Some u ->
  castable (Server.BookBody.treatmentId body) ->
  treatmentById d (Server.BookBody.treatmentId body) = None ->
  handle (Server.bookTreatment authorization body) d = mkWorld d (Some notFound) [].
Proof.
  intros Huser Hcast Htreatment.
  unfold Server.bookTreatment. rewrite (authenticateUser_known d authorization _ Huser).
  unfold handle, async, try_catch, bind, User_findById, User_findOne,
    Treatment_findById, getDb, ret.
  destruct (Server.BookBody.treatmentId body) as [|raw|i]; simpl.
  - destruct (find _ (users d)); reflexivity.
  - now elim (Hcast raw).
  - simpl in Htreatment. rewrite Htreatment.
    destruct (find _ (users d)); reflexivity.
Qed.

(** The route behind the middleware, on a value that does not cast to an
    ObjectId: the query rejects, the [catch] answers 500, nothing is
    written. *)
Lemma bookTreatment_malformed (d : Store Z) authorization u body raw :
  userByToken d authorization = Some u ->
  Server.BookBody.treatmentId body = Identity.Malformed raw ->
  handle (Server.bookTreatment authorization body) d =
  mkWorld d
    (Some (mkResponse 500 (JObj [("success", JBool false);
                                 ("message", JStr "Failed to book treatment");
                                 ("error", errJson (CastError "_id"))])))
    [].
Proof.
  intros Huser Hraw.
  unfold Server.bookTreatment. rewrite (authenticateUser_known d authorization _ Huser).
  unfold handle, async, try_catch, bind, User_findById, User_findOne,
    Treatment_findById, getDb, ret.
  rewrite Hraw. simpl. reflexivity.
Qed.

(** The route behind the middleware, on a treatment of the catalog. *)
Lemma bookTreatment_found (d : Store Z) authorization u t body :
  wellFormed d ->
  userByToken d authorization = Some u ->
  treatmentById d (Server.BookBody.treatmentId body) = Some t ->
  let booking := Booking.mk (Some (Treatment._id t))
                            (Some (newDate (Server.BookBody.pickedDate body))) in
  handle (Server.bookTreatment authorization body) d =
  mkWorld (mkStore (replaceById (Server.push u booking) (users d))
                   (treatments d) (nextId d))
          (Some (booked booking)) [].
Proof.
  intros Hwf Huser Htreatment booking.
  unfold Server.bookTreatment. rewrite (authenticateUser_known d authorization _ Huser).
  pose proof (userByToken_userById _ Hwf Huser) as Hid.
  unfold handle, async, try_catch, bind, User_findById, User_findOne,
    Treatment_findById, getDb, ret. simpl.
  destruct (Server.BookBody.treatmentId body) as [|raw|i]; try discriminate Htreatment.
  simpl. unfold userById in Hid. rewrite Hid.
  simpl in Htreatment. rewrite Htreatment.
  reflexivity.
Qed.

Lemma push_token (u : User.t Z) booking authorization :
  hasToken authorization (Server.push u booking) = hasToken authorization u.
Proof. reflexivity. Qed.

(** After a booking: the store keeps its identities and its catalog, the
    caller is found under the same token and identity with one more
    record, every other user is as before. *)
Lemma bookTreatment_found_store (d : Store Z) authorization u booking :
  wellFormed d ->
  userByToken d authorization = Some u ->
  let d' := mkStore (replaceById (Server.push u booking) (users d))
                    (treatments d) (nextId d) in
  wellFormed d' /\
  userByToken d' authorization = Some (Server.push u booking) /\
  userById d' (User._id u) = Some (Server.push u booking) /\
  (forall id, id <> User._id u -> userById d' id = userById d id) /\
  (forall treatmentId, treatmentById d' treatmentId = treatmentById d treatmentId).
Proof.
  intros Hwf Huser d'.
  pose proof (find_some _ _ Huser) as [Hin Htoken].
  repeat split.
  - unfold wellFormed, d'. simpl. now rewrite replaceById_ids.
  - unfold userByToken, d'. simpl.
    apply find_replaceById with (u := u); auto.
  - unfold userById, d'. simpl.
    apply find_replaceById with (u := u); auto.
    + now apply find_by_id.
    + simpl. apply Nat.eqb_refl.
  - intros id Hother. unfold userById, d'. simpl.
    now apply find_replaceById_other.
Qed.

(** C3 (amended). In server.js, whose book-treatment route reads
    [treatmentId]: when the caller is authenticated and the identity is
    absent, or casts to an ObjectId that names no treatment of the catalog,
    the answer is the 404 "not found" error and the store, so the caller's
    [bookedTreatments], is unchanged.  The route of part_000 reads
    [pickedDate] only: it is the same computation whatever treatment identity
    the request carries. *)
Theorem booking_unknown_treatment_not_found
    (d : Store Z) (authorization : option string) (u : User.t Z)
    (body : Server.BookBody.t) :
  userByToken d authorization = Some u ->
  castable (Server.BookBody.treatmentId body) ->
  notInCatalog d (Server.BookBody.treatmentId body) ->
  (let w := handle (Server.bookTreatment authorization body) d in
   sent w = Some notFound /\
   status notFound = 404 /\
   db w = d /\
   rejections w = [] /\
   option_map (@User.bookedTreatments Z) (userByToken (db w) authorization) =
     Some (User.bookedTreatments u)) /\
  (forall authorization0 treatmentId treatmentId' pickedDate,
     Part000.bookTreatment authorization0 (Part000.BookBody.mk treatmentId pickedDate) =
     Part000.bookTreatment authorization0 (Part000.BookBody.mk treatmentId' pickedDate)).
Proof.
  intros Huser Hcast Habsent. split; [|reflexivity].
  rewrite (bookTreatment_not_found d authorization body Huser Hcast
             (treatmentById_absent Habsent)).
  simpl. unfold userByToken in Huser. unfold userByToken. rewrite Huser.
  repeat split.
Qed.

Lemma booking_unknown_treatment_not_found_witness :
  userByToken demoStore (Some "a1b2c3") = Some anna /\
  notInCatalog demoStore (Identity.Id 9) /\
  sent (handle (Server.bookTreatment (Some "a1b2c3")
                  (Server.BookBody.mk (Identity.Id 9) (Some 1000%Z))) demoStore)
    = Some notFound.
Proof.
  assert (Huser : userByToken demoStore (Some "a1b2c3") = Some anna) by reflexivity.
  assert (Hcast : castable (Identity.Id 9)) by (intros raw; discriminate).
  assert (Habsent : notInCatalog demoStore (Identity.Id 9)).
  { intros t [<-|[<-|[<-|[<-|[]]]]]; discriminate. }
  split; [exact Huser|]. split; [exact Habsent|].
  exact (proj1 (proj1 (@booking_unknown_treatment_not_found
                         demoStore (Some "a1b2c3") anna
                         (Server.BookBody.mk (Identity.Id 9) (Some 1000%Z))
                         Huser Hcast Habsent))).
Defined.

(** C3 as stated fails on part_000 (lines 292-331): the caller is
    authenticated, identity 9 is well formed and names no treatment of the
    catalog, and the answer is 200 with a booking appended. *)
Lemma part000_books_unknown_treatment :
  let w := handle (Part000.bookTreatment (Some "d4e5f6")
                     (Part000.BookBody.mk (Identity.Id 9) (Some 1000%Z))) demoStore000 in
  userByToken demoStore000 (Some "d4e5f6") = Some bea /\
  treatmentById demoStore000 (Identity.Id 9) = None /\
  option_map status (sent w) = Some 200 /\
  User.bookedTreatments bea = [] /\
  option_map (@User.bookedTreatments string) (userByToken (db w) (Some "d4e5f6")) =
    Some [Booking.mk None (Some (ValidDate 1000))].
Proof. repeat split. Qed.

(** C6, on the code: after every successful booking of server.js the
    [booking] of the response carries [bookedDate], and the record appended
    to the caller's [bookedTreatments] does not (the subdocument schema,
    lines 98-105, declares [treatment] only): the two differ. *)
Theorem booking_response_differs_from_record
    (d : Store Z) (authorization : option string) (u : User.t Z)
    (t : Treatment.t) (req : Server.BookBody.t) :
  wellFormed d ->
  userByToken d authorization = Some u ->
  treatmentById d (Server.BookBody.treatmentId req) = Some t ->
  let w := handle (Server.bookTreatment authorization req) d in
  let returned := Booking.mk (Some (Treatment._id t))
                             (Some (newDate (Server.BookBody.pickedDate req))) in
  let stored := Booking.mk (Some (Treatment._id t)) None in
  exists r u',
    sent w = Some r /\ status r = 200 /\
    field "booking" (body r) = Some (bookingJson returned) /\
    userById (db w) (User._id u) = Some u' /\
    User.bookedTreatments u' = (User.bookedTreatments u ++ [stored])%list /\
    bookingJson returned <> bookingJson stored.
Proof.
  intros Hwf Huser Htreatment w returned stored.
  unfold w. rewrite (@bookTreatment_found d authorization u t req Hwf Huser Htreatment).
  destruct (@bookTreatment_found_store d authorization u returned Hwf Huser) as (_ & _ & Hid & _).
  exists (booked returned), (Server.push u returned). simpl.
  repeat split; try assumption.
  unfold bookingJson. simpl. discriminate.
Qed.

Lemma booking_response_differs_from_record_witness :
  exists r u',
    sent (handle (Server.bookTreatment (Some "a1b2c3")
                    (Server.BookBody.mk (Identity.Id 3) (Some 1000%Z))) demoStore) = Some r /\
    field "booking" (body r) =
      Some (JObj [("treatment", JId 3); ("bookedDate", JDate 1000)]) /\
    userById (db (handle (Server.bookTreatment (Some "a1b2c3")
                            (Server.BookBody.mk (Identity.Id 3) (Some 1000%Z))) demoStore)) 1
      = Some u' /\
    map bookingJson (User.bookedTreatments u') = [JObj [("treatment", JId 3)]].
Proof.
  assert (Hwf : wellFormed demoStore).
  { repeat constructor; simpl; intuition. }
  destruct (@booking_response_differs_from_record demoStore (Some "a1b2c3") anna
              (Treatment.mk 3 "Hair Dye") (Server.BookBody.mk (Identity.Id 3) (Some 1000%Z))
              Hwf eq_refl eq_refl)
    as (r & u' & Hsent & _ & Hbooking & Hid & Hrecords & _).
  exists r, u'. repeat split; try assumption.
  rewrite Hrecords. reflexivity.
Defined.

(** C9. Two successive valid bookings by one authenticated user of
    server.js: both are answered 200, exactly two records are appended to
    that user's [bookedTreatments], in call order, the catalog is the same
    after each, and no other user changes. *)
Theorem two_bookings_appended_in_order
    (d : Store Z) (authorization : option string) (u : User.t Z)
    (t1 t2 : Treatment.t) (body1 body2 : Server.BookBody.t) :
  wellFormed d ->
  userByToken d authorization = Some u ->
  treatmentById d (Server.BookBody.treatmentId body1) = Some t1 ->
  treatmentById d (Server.BookBody.treatmentId body2) = Some t2 ->
  let w1 := handle (Server.bookTreatment authorization body1) d in
  let w2 := handle (Server.bookTreatment authorization body2) (db w1) in
  option_map status (sent w1) = Some 200 /\
  option_map status (sent w2) = Some 200 /\
  (exists u2,
      userById (db w2) (User._id u) = Some u2 /\
      User.bookedTreatments u2 =
        (User.bookedTreatments u ++
         [Booking.mk (Some (Treatment._id t1)) None;
          Booking.mk (Some (Treatment._id t2)) None])%list) /\
  treatments (db w1) = treatments d /\
  treatments (db w2) = treatments d /\
  (forall id, id <> User._id u -> userById (db w2) id = userById d id).
Proof.
  intros Hwf Huser Ht1 Ht2 w1 w2.
  set (b1 := Booking.mk (Some (Treatment._id t1))
                        (Some (newDate (Server.BookBody.pickedDate body1)))).
  set (b2 := Booking.mk (Some (Treatment._id t2))
                        (Some (newDate (Server.BookBody.pickedDate body2)))).
  assert (E1 : w1 = mkWorld (mkStore (replaceById (Server.push u b1) (users d))
                                     (treatments d) (nextId d))
                            (Some (booked b1)) [])
    by apply (@bookTreatment_found d authorization u t1 body1 Hwf Huser Ht1).
  destruct (@bookTreatment_found_store d authorization u b1 Hwf Huser)
    as (Hwf1 & Huser1 & _ & Hother1 & Hcatalog1).
  assert (E2 : w2 = mkWorld (mkStore (replaceById (Server.push (Server.push u b1) b2)
                                        (users (db w1)))
                                     (treatments (db w1)) (nextId (db w1)))
                            (Some (booked b2)) []).
  { unfold w2. rewrite E1. simpl.
    apply (@bookTreatment_found _ authorization (Server.push u b1) t2 body2 Hwf1 Huser1).
    now rewrite Hcatalog1. }
  destruct (@bookTreatment_found_store _ authorization (Server.push u b1) b2 Hwf1 Huser1)
    as (_ & _ & Hid2 & Hother2 & _).
  rewrite E2, E1. simpl. repeat split.
  - exists (Server.push (Server.push u b1) b2). split.
    + exact Hid2.
    + simpl. now rewrite <- app_assoc.
  - intros id Hother. rewrite <- (Hother1 id Hother). now apply Hother2.
Qed.

Lemma two_bookings_appended_in_order_witness :
  exists u2,
    userById
      (db (handle (Server.bookTreatment (Some "a1b2c3")
                     (Server.BookBody.mk (Identity.Id 5) (Some 2000%Z)))
             (db (handle (Server.bookTreatment (Some "a1b2c3")
                            (Server.BookBody.mk (Identity.Id 3) (Some 1000%Z))) demoStore))))
      1 = Some u2 /\
    User.bookedTreatments u2 = [Booking.mk (Some 3) None; Booking.mk (Some 5) None].
Proof.
  assert (Hwf : wellFormed demoStore).
  { repeat constructor; simpl; intuition. }
  destruct (@two_bookings_appended_in_order demoStore (Some "a1b2c3") anna
              (Treatment.mk 3 "Hair Dye") (Treatment.mk 5 "Hair styling")
              (Server.BookBody.mk (Identity.Id 3) (Some 1000%Z))
              (Server.BookBody.mk (Identity.Id 5) (Some 2000%Z))
              Hwf eq_refl eq_refl eq_refl)
    as (_ & _ & (u2 & Hid & Hrecords) & _).
  exists u2. split; assumption.
Defined.

(** ** Registration (server.js 177-212, part_000 174-223) *)

Lemma existsb_absent {A} (f : A -> bool) (l : list A) :
  (forall x, In x l -> f x = false) -> existsb f l = false.
Proof.
  induction l as [|x l IH]; intros Hall; simpl; [reflexivity|].
  rewrite (Hall x (or_introl eq_refl)). apply IH.
  intros y Hy. apply Hall. now right.
Qed.

Lemma eqb_empty_false (s : string) : s <> "" -> negb (s =? "") = true.
Proof. intros Hs. now destruct (String.eqb_spec s ""). Qed.

Lemma bcryptFormat_nonempty (bcrypt : Bcrypt) data salt :
  bcryptFormat bcrypt -> hashSync data salt <> "".
Proof.
  intros Hformat Hempty. specialize (Hformat data salt).
  rewrite Hempty in Hformat. discriminate.
Qed.

Section Registration.
Context {bcrypt : Bcrypt}.

(** [new User(...).save()] on an accepted request: the document is appended
    under a fresh identity. *)
Lemma User_create_accepted (d : Store Z) rnd req phone response rejected :
  acceptedBySchema d req phone ->
  hashSync (Server.RegisterBody.password req) (genSaltSync rnd) <> "" ->
  Server.User_create req
    (hashSync (Server.RegisterBody.password req) (genSaltSync rnd)) rnd
    (mkWorld d response rejected) =
  (Ok (registered d rnd req phone),
   mkWorld (mkStore (users d ++ [registered d rnd req phone]) (treatments d)
                    (S (nextId d)))
           response rejected).
Proof.
  intros (Hfirst & Hlast & Hemail & Hphone & Hnew_email & Hnew_phone) Hhash.
  unfold Server.User_create, Server.invalidPaths.
  rewrite Hfirst, Hlast, Hphone, !eqb_empty_false by assumption. simpl.
  unfold User_insert, bind, getDb, putDb, ret, throw. simpl.
  rewrite !existsb_absent; [reflexivity| |].
  - intros u Hu. apply Z.eqb_neq. now apply Hnew_phone.
  - intros u Hu. apply String.eqb_neq. now apply Hnew_email.
Qed.

Lemma password_in_range (password : string) :
  15 <= String.length password <= 20 ->
  Nat.ltb (String.length password) 15 || Nat.ltb 20 (String.length password) = false.
Proof.
  intros [Hlo Hhi]. apply orb_false_iff. split; apply Nat.ltb_ge; assumption.
Qed.

Lemma password_out_of_range (password : string) :
  String.length password < 15 \/ 20 < String.length password ->
  Nat.ltb (String.length password) 15 || Nat.ltb 20 (String.length password) = true.
Proof.
  intros [H|H]; apply orb_true_iff; [left|right]; now apply Nat.ltb_lt.
Qed.

Lemma register_accepted (d : Store Z) rnd req phone :
  bcryptFormat bcrypt ->
  15 <= String.length (Server.RegisterBody.password req) <= 20 ->
  acceptedBySchema d req phone ->
  handle (Server.register rnd req) d =
  mkWorld (mkStore (users d ++ [registered d rnd req phone]) (treatments d)
                   (S (nextId d)))
          (Some (created (registered d rnd req phone))) [].
Proof.
  intros Hformat Hrange Haccepted.
  unfold handle, async, Server.register, try_catch.
  unfold bind at 1. rewrite (password_in_range _ Hrange).
  unfold ret at 1. unfold bind at 1.
  rewrite (User_create_accepted _ _ _ Haccepted)
    by now apply bcryptFormat_nonempty.
  reflexivity.
Qed.

(** With a password of the wrong length the 400 is sent and the route goes
    on (lines 179-182): the user is saved all the same, and both later
    attempts to answer fail on the response already sent. *)
Lemma register_wrong_length (d : Store Z) rnd req phone :
  bcryptFormat bcrypt ->
  String.length (Server.RegisterBody.password req) < 15 \/
  20 < String.length (Server.RegisterBody.password req) ->
  acceptedBySchema d req phone ->
  handle (Server.register rnd req) d =
  mkWorld (mkStore (users d ++ [registered d rnd req phone]) (treatments d)
                   (S (nextId d)))
          (Some passwordLength) [HeadersSent].
Proof.
  intros Hformat Hrange Haccepted.
  unfold handle, async, Server.register, try_catch.
  unfold bind at 1. rewrite (password_out_of_range _ Hrange).
  unfold respond at 1. simpl sent. cbv iota.
  unfold bind at 1.
  rewrite (User_create_accepted _ _ _ Haccepted)
    by now apply bcryptFormat_nonempty.
  reflexivity.
Qed.

End Registration.

(** C2, on the code: in server.js a register request whose password is
    shorter than 15 or longer than 20 characters, and whose other fields the
    schema accepts, is answered 400 and the new user is persisted: the users
    collection is not what it was. *)
Theorem register_wrong_length_persists
    {bcrypt : Bcrypt} (d : Store Z) (rnd : Random)
    (req : Server.RegisterBody.t) (phone : Z) :
  bcryptFormat bcrypt ->
  String.length (Server.RegisterBody.password req) < 15 \/
  20 < String.length (Server.RegisterBody.password req) ->
  acceptedBySchema d req phone ->
  let w := handle (Server.register rnd req) d in
  option_map status (sent w) = Some 400 /\
  users (db w) = (users d ++ [registered d rnd req phone])%list /\
  users (db w) <> users d.
Proof.
  intros Hformat Hrange Haccepted w. unfold w.
  rewrite (@register_wrong_length bcrypt d rnd req phone Hformat Hrange Haccepted). simpl.
  repeat split.
  intros Hsame. apply (f_equal (@List.length _)) in Hsame.
  rewrite length_app in Hsame. simpl in Hsame. lia.
Qed.

Lemma length_append (s1 s2 : string) :
  String.length (s1 ++ s2) = String.length s1 + String.length s2.
Proof. induction s1 as [|c s1 IH]; simpl; [reflexivity|now rewrite IH]. Qed.

Lemma length_fit (n : nat) (s : string) : String.length (fit n s) = n.
Proof.
  revert s. induction n as [|n IH]; intros s; simpl; [reflexivity|].
  destruct s; simpl; now rewrite IH.
Qed.

Lemma demoBcrypt_format : bcryptFormat demoBcrypt.
Proof.
  intros data salt. change (hashSync data salt) with (demoHash data salt).
  unfold demoHash. rewrite !length_append, !length_fit. reflexivity.
Qed.

Lemma carl_accepted password : acceptedBySchema demoStore (carl password) 46700000000%Z.
Proof. repeat split; try discriminate; intros u [<-|[]]; discriminate. Qed.

Lemma register_wrong_length_persists_witness :
  map (@User.email Z)
      (users (db (handle (Server.register (bcrypt := demoBcrypt) demoRandom (carl "short"))
                         demoStore)))
  = ["anna@example.com"; "carl@example.com"].
Proof.
  assert (Hrange : String.length (Server.RegisterBody.password (carl "short")) < 15 \/
                   20 < String.length (Server.RegisterBody.password (carl "short")))
    by (simpl; lia).
  destruct (@register_wrong_length_persists demoBcrypt demoStore demoRandom
              (carl "short") 46700000000%Z
              demoBcrypt_format Hrange (carl_accepted "short"))
    as (_ & Husers & _).
  rewrite Husers. reflexivity.
Defined.

(** Whatever the other fields are, the answer of server.js to a password of
    the wrong length is the 400 sent first. *)
Lemma register_wrong_length_answer {bcrypt : Bcrypt} (d : Store Z) rnd req :
  String.length (Server.RegisterBody.password req) < 15 \/
  20 < String.length (Server.RegisterBody.password req) ->
  sent (handle (Server.register rnd req) d) = Some passwordLength.
Proof.
  intros Hrange.
  unfold handle, async, Server.register, try_catch.
  unfold bind at 1. rewrite (password_out_of_range _ Hrange).
  unfold respond at 1. simpl sent. cbv iota.
  unfold bind at 1, Server.User_create.
  destruct (Server.invalidPaths _ _); [destruct (Server.RegisterBody.mobilePhone req)|];
    try reflexivity.
  unfold User_insert, bind, getDb, putDb, ret, throw. simpl.
  repeat match goal with |- context [if ?c then _ else _] => destruct c end;
    reflexivity.
Qed.

(** In part_000 the validation chain answers and returns (lines 186-189):
    a password of the wrong length gets a 400 and the store is untouched. *)
Lemma part000_register_wrong_length_rejected
    {bcrypt : Bcrypt} {validator : Validator} (d : Store string) rnd req :
  String.length (Part000.RegisterBody.password req) < 15 \/
  20 < String.length (Part000.RegisterBody.password req) ->
  handle (Part000.register rnd req) d =
  mkWorld d (Some (mkResponse 400 (JObj [("success", JBool false);
                                         ("errors", JArr (Part000.registerErrors req))])))
          [].
Proof.
  intros Hrange.
  assert (Hbad : Part000.lengthBetween 15 20 (Part000.RegisterBody.password req) = false).
  { unfold Part000.lengthBetween. apply andb_false_iff.
    destruct Hrange; [left|right]; now apply Nat.leb_gt. }
  unfold Part000.register.
  destruct (Part000.registerErrors req) as [|e errors] eqn:Herrors; [|reflexivity].
  exfalso. unfold Part000.registerErrors in Herrors. rewrite Hbad in Herrors.
  repeat (apply app_eq_nil in Herrors; destruct Herrors as [_ Herrors]).
  discriminate.
Qed.

(** C7. A valid registration with server.js is answered 201 with a
    projection of exactly the names, email, phone, identity and the newly
    issued accessToken, each with the value of the request (the identity and
    the token: the fresh ones); the answer is written out below, built from
    these six values alone, the submitted password and its hash not among
    them; the projection has no [password] field; and the persisted record
    holds as [password] the bcrypt
    hash of the submitted password under the salt drawn for this request,
    which is not the plaintext. *)
Theorem register_valid_projection_and_hash
    {bcrypt : Bcrypt} (d : Store Z) (rnd : Random)
    (req : Server.RegisterBody.t) (phone : Z) :
  bcryptFormat bcrypt ->
  15 <= String.length (Server.RegisterBody.password req) <= 20 ->
  acceptedBySchema d req phone ->
  let w := handle (Server.register rnd req) d in
  let u := registered d rnd req phone in
  sent w = Some (created u) /\
  sent w =
    Some (mkResponse 201
            (JObj [("success", JBool true);
                   ("response",
                    JObj [("firstName", JStr (Server.RegisterBody.firstName req));
                          ("lastName", JStr (Server.RegisterBody.lastName req));
                          ("email", JStr (Server.RegisterBody.email req));
                          ("mobilePhone", JNum phone);
                          ("id", JId (nextId d));
                          ("accessToken", JStr (randomBytesHex rnd))])])) /\
  rejections w = [] /\
  (exists r projection,
      sent w = Some r /\ status r = 201 /\
      keys (body r) = ["success"; "response"] /\
      field "response" (body r) = Some projection /\
      keys projection =
        ["firstName"; "lastName"; "email"; "mobilePhone"; "id"; "accessToken"] /\
      field "firstName" projection = Some (JStr (Server.RegisterBody.firstName req)) /\
      field "lastName" projection = Some (JStr (Server.RegisterBody.lastName req)) /\
      field "id" projection = Some (JId (User._id u)) /\
      field "accessToken" projection = Some (JStr (randomBytesHex rnd)) /\
      field "password" projection = None) /\
  users (db w) = (users d ++ [u])%list /\
  User.accessToken u = randomBytesHex rnd /\
  User.password u = hashSync (Server.RegisterBody.password req) (genSaltSync rnd) /\
  User.password u <> Server.RegisterBody.password req.
Proof.
  intros Hformat Hrange Haccepted w u. unfold w.
  rewrite (@register_accepted bcrypt d rnd req phone Hformat Hrange Haccepted). simpl.
  split; [reflexivity|]. split; [reflexivity|]. split; [reflexivity|].
  split; [|repeat split].
  - eexists. eexists. repeat split.
  - intros Hplain. apply (f_equal String.length) in Hplain.
    rewrite Hformat in Hplain. lia.
Qed.

Lemma register_valid_projection_and_hash_witness :
  map (@User.password Z)
      (users (db (handle (Server.register (bcrypt := demoBcrypt) demoRandom
                                          (carl "sixteen letters!"))
                         demoStore)))
  = [User.password anna;
     "$2b$10$saltsaltsaltsaltsalt22sixteen letters!..............."].
Proof.
  assert (Hrange :
            15 <= String.length (Server.RegisterBody.password (carl "sixteen letters!"))
               <= 20)
    by (simpl; lia).
  destruct (@register_valid_projection_and_hash demoBcrypt demoStore demoRandom
              (carl "sixteen letters!") 46700000000%Z
              demoBcrypt_format Hrange (carl_accepted "sixteen letters!"))
    as (_ & _ & _ & _ & Husers & _).
  rewrite Husers. reflexivity.
Defined.

(** ** Login (server.js 214-242, part_000 226-266) *)

Section Login.
Context {bcrypt : Bcrypt}.

(** What the login route of server.js does, by cases on the stored user, on
    the kind of the password field and on bcrypt's verdict; the store is
    read, never written. *)
Lemma login_cases (d : Store Z) (req : Server.LoginBody.t) :
  handle (Server.login req) d =
  mkWorld d
    (Some match userByEmail d (Server.LoginBody.email req) with
          | Some u =>
              match Server.LoginBody.password req with
              | Password.Text p =>
                  if compareSync p (User.password u)
                  then loggedIn Server.phoneJson u
                  else credentialsDoNotMatch
              | _ => loginError
              end
          | None => credentialsDoNotMatch
          end)
    [].
Proof.
  unfold handle, async, Server.login, try_catch, bind, User_findOne, getDb, ret,
    userByEmail, compareSyncField.
  simpl.
  destruct (find _ (users d)) as [u|]; [|reflexivity].
  destruct (Server.LoginBody.password req) as [|text|p]; try reflexivity.
  unfold ret. destruct (compareSync _ _); reflexivity.
Qed.

Context {validator : Validator}.

(** The same for part_000, once the request passed the validation chain. *)
Lemma part000_login_cases (d : Store string) (req : Part000.LoginBody.t) :
  Part000.loginErrors req = [] ->
  handle (Part000.login req) d =
  mkWorld d
    (Some match userByEmail d (Part000.LoginBody.email req) with
          | Some u =>
              match Part000.LoginBody.password req with
              | Password.Text p =>
                  if compareSync p (User.password u)
                  then loggedIn Part000.phoneJson u
                  else invalidLoginCredentials
              | _ => loginError000
              end
          | None => invalidLoginCredentials
          end)
    [].
Proof.
  intros Hvalid.
  unfold Part000.login. rewrite Hvalid.
  unfold handle, async, try_catch, bind, User_findOne, getDb, ret, userByEmail,
    compareSyncField.
  simpl.
  destruct (find _ (users d)) as [u|]; [|reflexivity].
  destruct (Part000.LoginBody.password req) as [|text|p]; try reflexivity.
  unfold ret. destruct (compareSync _ _); reflexivity.
Qed.

(** A request the validation chain stops is answered with the chain's
    errors. *)
Lemma part000_login_invalid (d : Store string) (req : Part000.LoginBody.t) e errors :
  Part000.loginErrors req = e :: errors ->
  handle (Part000.login req) d =
  mkWorld d (Some (mkResponse 400 (JObj [("success", JBool false);
                                         ("errors", JArr (e :: errors))]))) [].
Proof.
  intros Hinvalid. unfold Part000.login. rewrite Hinvalid. reflexivity.
Qed.

End Login.

(** When both passwords are strings, a login with a registered email and a
    wrong password and a login with an unregistered email get the same
    answer and leave the same store: in server.js for every such pair, in
    part_000 for every such pair that passes the validation chain. *)
Lemma login_failures_indistinguishable
    {bcrypt : Bcrypt} {validator : Validator}
    (d : Store Z) (known unknown : Server.LoginBody.t) (u : User.t Z) (p : string)
    (d0 : Store string) (known0 unknown0 : Part000.LoginBody.t) (u0 : User.t string)
    (p0 : string) :
  userByEmail d (Server.LoginBody.email known) = Some u ->
  Server.LoginBody.password known = Password.Text p ->
  compareSync p (User.password u) = false ->
  userByEmail d (Server.LoginBody.email unknown) = None ->
  userByEmail d0 (Part000.LoginBody.email known0) = Some u0 ->
  Part000.LoginBody.password known0 = Password.Text p0 ->
  compareSync p0 (User.password u0) = false ->
  userByEmail d0 (Part000.LoginBody.email unknown0) = None ->
  Part000.loginErrors known0 = [] ->
  Part000.loginErrors unknown0 = [] ->
  (handle (Server.login known) d = handle (Server.login unknown) d /\
   sent (handle (Server.login known) d) = Some credentialsDoNotMatch) /\
  (handle (Part000.login known0) d0 = handle (Part000.login unknown0) d0 /\
   sent (handle (Part000.login known0) d0) = Some invalidLoginCredentials).
Proof.
  intros Hknown Htext Hwrong Hunknown Hknown0 Htext0 Hwrong0 Hunknown0 Hvalid Hvalid0.
  rewrite !login_cases, !part000_login_cases by assumption.
  rewrite Hknown, Htext, Hwrong, Hunknown, Hknown0, Htext0, Hwrong0, Hunknown0.
  repeat split.
Qed.

(** C5, on the code: a login whose [password] is missing, or is not a
    string, is answered 500 when its email is registered, because
    [bcrypt.compareSync] raises, and 400 when it is not, because the lookup
    short-circuits: the two failures are told apart by status and payload.
    In server.js for every such pair; in part_000 for the pairs the
    validation chain lets through (a value that is not a string and does
    not read as empty passes [not().isEmpty()]). *)
Theorem login_without_string_password_tells_registered
    {bcrypt : Bcrypt} {validator : Validator}
    (d : Store Z) (known unknown : Server.LoginBody.t) (u : User.t Z)
    (d0 : Store string) (known0 unknown0 : Part000.LoginBody.t) (u0 : User.t string) :
  userByEmail d (Server.LoginBody.email known) = Some u ->
  notAString (Server.LoginBody.password known) ->
  userByEmail d (Server.LoginBody.email unknown) = None ->
  userByEmail d0 (Part000.LoginBody.email known0) = Some u0 ->
  notAString (Part000.LoginBody.password known0) ->
  userByEmail d0 (Part000.LoginBody.email unknown0) = None ->
  Part000.loginErrors known0 = [] ->
  Part000.loginErrors unknown0 = [] ->
  (sent (handle (Server.login known) d) = Some loginError /\
   sent (handle (Server.login unknown) d) = Some credentialsDoNotMatch /\
   status loginError = 500 /\ status credentialsDoNotMatch = 400) /\
  (sent (handle (Part000.login known0) d0) = Some loginError000 /\
   sent (handle (Part000.login unknown0) d0) = Some invalidLoginCredentials /\
   status loginError000 = 500 /\ status invalidLoginCredentials = 400).
Proof.
  intros Hknown Hkind Hunknown Hknown0 Hkind0 Hunknown0 Hvalid Hvalid0.
  rewrite !login_cases, !part000_login_cases by assumption.
  rewrite Hknown, Hunknown, Hknown0, Hunknown0. simpl.
  destruct (Server.LoginBody.password known) as [|text|p];
    [| |now elim (Hkind p)];
    (destruct (Part000.LoginBody.password known0) as [|text0|p0];
     [| |now elim (Hkind0 p0)]);
    repeat split.
Qed.

Lemma login_without_string_password_tells_registered_witness :
  option_map status
    (sent (handle (Server.login (bcrypt := demoBcrypt)
                     (Server.LoginBody.mk "anna@example.com" Password.Absent))
                  demoStore)) = Some 500 /\
  option_map status
    (sent (handle (Server.login (bcrypt := demoBcrypt)
                     (Server.LoginBody.mk "zed@example.com" Password.Absent))
                  demoStore)) = Some 400 /\
  option_map status
    (sent (handle (Part000.login (bcrypt := demoBcrypt) (validator := demoValidator)
                     (Part000.LoginBody.mk "bea@example.com" (Password.Other (JNum 123) "123")))
                  demoStore000)) = Some 500 /\
  option_map status
    (sent (handle (Part000.login (bcrypt := demoBcrypt) (validator := demoValidator)
                     (Part000.LoginBody.mk "zed@example.com" (Password.Other (JNum 123) "123")))
                  demoStore000)) = Some 400.
Proof.
  assert (Hkind : notAString Password.Absent) by (intros s; discriminate).
  assert (Hkind0 : notAString (Password.Other (JNum 123) "123")) by (intros s; discriminate).
  destruct (@login_without_string_password_tells_registered demoBcrypt demoValidator
              demoStore
              (Server.LoginBody.mk "anna@example.com" Password.Absent)
              (Server.LoginBody.mk "zed@example.com" Password.Absent) anna
              demoStore000
              (Part000.LoginBody.mk "bea@example.com" (Password.Other (JNum 123) "123"))
              (Part000.LoginBody.mk "zed@example.com" (Password.Other (JNum 123) "123")) bea
              eq_refl Hkind eq_refl eq_refl Hkind0 eq_refl eq_refl eq_refl)
    as [(Hknown & Hunknown & _) (Hknown0 & Hunknown0 & _)].
  rewrite Hknown, Hunknown, Hknown0, Hunknown0. repeat split.
Defined.

(** In part_000 a password that reads as empty is stopped by the
    validation chain whatever validator.js says of the email, and never
    reaches the credentials check. *)
Lemma part000_login_empty_password
    {bcrypt : Bcrypt} {validator : Validator} (d : Store string) email password :
  Password.shown password = "" ->
  exists errors,
    sent (handle (Part000.login (Part000.LoginBody.mk email password)) d) =
    Some (mkResponse 400 (JObj [("success", JBool false); ("errors", JArr errors)])).
Proof.
  intros Hempty.
  unfold Part000.login, Part000.loginErrors. simpl. rewrite Hempty. simpl.
  destruct (isEmail email); simpl; eexists; reflexivity.
Qed.

(** C8. A successful login with server.js returns the accessToken held in
    the stored record of the user with that email, the one set when the
    record was created, and leaves the store, that record included, as it
    was. *)
Theorem login_returns_stored_token
    {bcrypt : Bcrypt} (d : Store Z) (req : Server.LoginBody.t) (r : Response) :
  sent (handle (Server.login req) d) = Some r ->
  status r = 200 ->
  (exists u p projection,
      userByEmail d (Server.LoginBody.email req) = Some u /\
      In u (users d) /\
      Server.LoginBody.password req = Password.Text p /\
      compareSync p (User.password u) = true /\
      field "response" (body r) = Some projection /\
      field "accessToken" projection = Some (JStr (User.accessToken u)) /\
      userByEmail (db (handle (Server.login req) d)) (Server.LoginBody.email req)
        = Some u) /\
  db (handle (Server.login req) d) = d.
Proof.
  rewrite login_cases. simpl. intros Hsent Hstatus.
  split; [|reflexivity].
  destruct (userByEmail d (Server.LoginBody.email req)) as [u|] eqn:Hu.
  - destruct (Server.LoginBody.password req) as [|text|p];
      try (injection Hsent as <-; discriminate).
    destruct (compareSync _ _) eqn:Hpassword.
    + injection Hsent as <-. exists u, p. eexists.
      repeat split; try assumption. now apply find_some in Hu.
    + injection Hsent as <-. discriminate.
  - injection Hsent as <-. discriminate.
Qed.

Lemma login_returns_stored_token_witness :
  exists projection,
    option_map (fun r => field "response" (body r))
      (sent (handle (Server.login (bcrypt := demoBcrypt)
                       (Server.LoginBody.mk "anna@example.com"
                                            (Password.Text "correct horse 15")))
                    demoStore)) = Some (Some projection) /\
    field "accessToken" projection = Some (JStr "a1b2c3").
Proof.
  destruct (@login_returns_stored_token demoBcrypt demoStore
              (Server.LoginBody.mk "anna@example.com" (Password.Text "correct horse 15"))
              _ eq_refl eq_refl)
    as [(u & p & projection & Hu & _ & _ & _ & Hresponse & Htoken & _) _].
  exists projection. split.
  - simpl. simpl in Hresponse. now rewrite <- Hresponse.
  - injection Hu as <-. exact Htoken.
Defined.

(** The login route never writes, whatever it answers. *)
Lemma login_reads_only {bcrypt : Bcrypt} (d : Store Z) (req : Server.LoginBody.t) :
  db (handle (Server.login req) d) = d.
Proof. now rewrite login_cases. Qed.

(** ** User info (server.js 333-344, part_000 361-372) *)

Lemma dateJson_injective (a b : JsDate) : dateJson a = dateJson b -> a = b.
Proof. destruct a, b; simpl; congruence. Qed.

Lemma bookingJson_injective (a b : Booking.t) : bookingJson a = bookingJson b -> a = b.
Proof.
  destruct a as [[ta|] [da|]], b as [[tb|] [db|]]; unfold bookingJson; simpl;
    intros H; try discriminate; try reflexivity;
    injection H; intros; subst;
    repeat match goal with
           | E : dateJson _ = dateJson _ |- _ => apply dateJson_injective in E; subst
           end;
    reflexivity.
Qed.

Lemma cons_injective {A} (x y : A) (l l' : list A) :
  x :: l = y :: l' -> x = y /\ l = l'.
Proof. intros H. injection H. auto. Qed.

Lemma map_bookingJson_injective (l l' : list Booking.t) :
  map bookingJson l = map bookingJson l' -> l = l'.
Proof.
  revert l'. induction l as [|a l IH]; intros [|b l']; simpl; intros H;
    try discriminate; [reflexivity|].
  apply cons_injective in H. destruct H as [Hhead Htail].
  apply bookingJson_injective in Hhead. apply IH in Htail. now subst.
Qed.

Section UserInfo.
Context {Phone : Type}.
Variable phoneJson : Phone -> json.

Lemma userJson_whole (u : User.t Phone) : wholeDocument phoneJson u (userJson phoneJson u).
Proof. repeat split. Qed.

(** The serialised document determines the stored one: nothing of it is
    dropped on the way to the response. *)
Lemma userJson_injective (u u' : User.t Phone) :
  (forall p q, phoneJson p = phoneJson q -> p = q) ->
  userJson phoneJson u = userJson phoneJson u' -> u = u'.
Proof.
  intros Hphone. destruct u, u'. unfold userJson. simpl. intros H.
  injection H as Hid Hfirst Hlast Hemail Hmobile Hpassword Htoken Hbooked.
  apply Hphone in Hmobile. apply map_bookingJson_injective in Hbooked.
  now subst.
Qed.

Lemma userInfo_known (d : Store Phone) authorization u :
  userByToken d authorization = Some u ->
  handle (Shared.userInfo phoneJson authorization) d =
  mkWorld d
    (Some (mkResponse 200 (JObj [("success", JBool true);
                                 ("message", JStr "This is your user information");
                                 ("user", userJson phoneJson u)])))
    [].
Proof.
  intros Huser. unfold Shared.userInfo.
  now rewrite (authenticateUser_known d authorization _ Huser).
Qed.

End UserInfo.

(** C10. An authenticated GET user-info, in server.js and in part_000, is
    answered 200 with the caller's stored document under [user]: every path
    of the document with its stored value, the bcrypt hash in [password], the
    accessToken and the [bookedTreatments] list among them; the stored
    document can be read back from the answer. *)
Theorem userInfo_returns_whole_document
    (d : Store Z) (d0 : Store string) (authorization authorization0 : option string)
    (u : User.t Z) (u0 : User.t string) :
  userByToken d authorization = Some u ->
  userByToken d0 authorization0 = Some u0 ->
  (exists r j,
      sent (handle (Server.userInfo authorization) d) = Some r /\
      status r = 200 /\
      field "user" (body r) = Some j /\
      wholeDocument Server.phoneJson u j /\
      (forall u', userJson Server.phoneJson u' = j -> u' = u) /\
      In u (users d)) /\
  (exists r j,
      sent (handle (Part000.userInfo authorization0) d0) = Some r /\
      status r = 200 /\
      field "user" (body r) = Some j /\
      wholeDocument Part000.phoneJson u0 j /\
      (forall u', userJson Part000.phoneJson u' = j -> u' = u0) /\
      In u0 (users d0)).
Proof.
  intros Huser Huser0.
  unfold Server.userInfo, Part000.userInfo.
  rewrite (@userInfo_known Z Server.phoneJson d authorization u Huser).
  rewrite (@userInfo_known string Part000.phoneJson d0 authorization0 u0 Huser0).
  split; eexists; eexists; simpl;
    (split; [reflexivity|]; split; [reflexivity|]; split; [reflexivity|]);
    (split; [apply userJson_whole|]); split.
  - intros u' Hu'. apply (@userJson_injective Z Server.phoneJson); [|exact Hu'].
    unfold Server.phoneJson. congruence.
  - now apply find_some in Huser.
  - intros u' Hu'. apply (@userJson_injective string Part000.phoneJson); [|exact Hu'].
    unfold Part000.phoneJson. congruence.
  - now apply find_some in Huser0.
Qed.

Lemma userInfo_returns_whole_document_witness :
  exists r,
    sent (handle (Server.userInfo (Some "a1b2c3")) demoStore) = Some r /\
    option_map (field "password") (field "user" (body r)) =
      Some (Some (JStr "$2b$10$saltsaltsaltsaltsalt22correct horse 15...............")).
Proof.
  destruct (@userInfo_returns_whole_document demoStore demoStore000
              (Some "a1b2c3") (Some "d4e5f6") anna bea eq_refl eq_refl)
    as [(r & j & Hsent & _ & Huser & Hwhole & _) _].
  exists r. split; [exact Hsent|].
  rewrite Huser. simpl.
  destruct Hwhole as (_ & _ & _ & _ & _ & _ & Hpassword & _).
  now rewrite Hpassword.
Defined.

(** ** Seeding the catalog (server.js 121-156, part_000 120-153, part_001 113-130) *)

Lemma find_app {A} (f : A -> bool) (l l' : list A) :
  find f (l ++ l') = match find f l with
                     | Some x => Some x
                     | None => find f l'
                     end.
Proof.
  induction l as [|x l IH]; simpl; [reflexivity|].
  destruct (f x); [reflexivity|exact IH].
Qed.

Ltac seeding_cases d :=
  repeat match goal with
         | |- context [find ?f (treatments d)] =>
             let E := fresh "E" in
             destruct (find f (treatments d)) eqn:E; simpl
         end.

(** The seeding block of server.js is idempotent: on every store, a second
    run changes nothing. *)
Lemma seeding_idempotent (d : Store Z) :
  Server.seeded (Server.seeded d) = Server.seeded d.
Proof.
  unfold Server.seeded at 2 3.
  unfold handle, async, Server.startup, Server.createTreatments, try_catch, bind,
    Treatment_find, getDb, ret. simpl.
  seeding_cases d;
    unfold Server.seeded, handle, async, Server.startup, Server.createTreatments,
      try_catch, bind, Treatment_find, getDb, ret; simpl;
    rewrite ?find_app; simpl;
    repeat match goal with
           | E : find _ (treatments d) = _ |- _ => rewrite E; clear E
           end;
    reflexivity.
Qed.

(** So is the one of part_000. *)
Lemma part000_seeding_idempotent (d : Store string) :
  Part000.seeded (Part000.seeded d) = Part000.seeded d.
Proof.
  unfold Part000.seeded at 2 3.
  unfold handle, async, Part000.startup, Part000.createTreatments, try_catch, bind,
    Treatment_find, getDb, ret. simpl.
  seeding_cases d;
    unfold Part000.seeded, handle, async, Part000.startup, Part000.createTreatments,
      try_catch, bind, Treatment_find, getDb, ret; simpl;
    rewrite ?find_app; simpl;
    repeat match goal with
           | E : find _ (treatments d) = _ |- _ => rewrite E; clear E
           end;
    reflexivity.
Qed.

(** On an empty catalog the block of server.js creates the four treatments,
    once each. *)
Lemma seeding_empty_catalog :
  map Treatment.name (treatments (Server.seeded (mkStore [] [] 0))) =
  ["Haircut"; "Hair Dye"; "Haircut and Dye"; "Hair styling"].
Proof. reflexivity. Qed.

(** C4, on the code: the seeding block of part_001 saves its four
    treatments whatever the collection holds.  Each run adds four entries,
    so a second run on the same store yields another catalog than one run:
    eight new entries, every treatment twice. *)
Theorem part001_seeding_twice_duplicates (d : Part001.Db) :
  List.length (Part001.treatments (Part001.seeded d)) =
    List.length (Part001.treatments d) + 4 /\
  List.length (Part001.treatments (Part001.seeded (Part001.seeded d))) =
    List.length (Part001.treatments d) + 8 /\
  Part001.seeded (Part001.seeded d) <> Part001.seeded d /\
  map Part001.Treatment.cut
      (Part001.treatments (Part001.seeded (Part001.seeded (Part001.mkDb [] 0)))) =
    [Some "Haircut"; None; None; None; Some "Haircut"; None; None; None].
Proof.
  assert (H1 : List.length (Part001.treatments (Part001.seeded d)) =
               List.length (Part001.treatments d) + 4).
  { unfold Part001.seeded, handle. simpl. rewrite !length_app. simpl. lia. }
  assert (H2 : List.length (Part001.treatments (Part001.seeded (Part001.seeded d))) =
               List.length (Part001.treatments d) + 8).
  { unfold Part001.seeded, handle. simpl. rewrite !length_app. simpl. lia. }
  repeat split; try assumption.
  intros Hsame. rewrite Hsame in H2. lia.
Qed.

(** ** The invariant behind [wellFormed] *)

Lemma consistent_empty {Phone} (catalog : list Treatment.t) (next : ObjectId) :
  consistent (@mkStore Phone [] catalog next).
Proof. split; constructor. Qed.

(** A register request leaves the store as it was or appends the new
    document under the fresh identity. *)
Lemma register_store_cases {bcrypt : Bcrypt} (d : Store Z) rnd req :
  db (handle (Server.register rnd req) d) = d \/
  exists u, User._id u = nextId d /\
            db (handle (Server.register rnd req) d) =
            mkStore (users d ++ [u]) (treatments d) (S (nextId d)).
Proof.
  unfold handle, async, Server.register, try_catch, bind, Server.User_create.
  destruct (_ || _); simpl;
    destruct (Server.invalidPaths _ _); simpl; auto;
    destruct (Server.RegisterBody.mobilePhone req); simpl; auto;
    unfold User_insert, bind, getDb, putDb, ret, throw; simpl;
    repeat match goal with
           | |- context [if ?c then _ else _] => destruct c; simpl; auto
           end;
    right; eexists; (split; [|reflexivity]); reflexivity.
Qed.

Lemma register_consistent {bcrypt : Bcrypt} (d : Store Z) rnd req :
  consistent d -> consistent (db (handle (Server.register rnd req) d)).
Proof.
  intros [Hwf Hold].
  destruct (register_store_cases d rnd req) as [->|(u & Hid & ->)]; [now split|].
  unfold consistent, wellFormed in *. simpl. split.
  - rewrite map_app. simpl. apply NoDup_app; [exact Hwf|repeat constructor; auto|].
    intros id Hin [<-|[]]. rewrite in_map_iff in Hin. destruct Hin as (x & Hx & Hin).
    rewrite Forall_forall in Hold. specialize (Hold x Hin). lia.
  - apply Forall_app. split.
    + eapply Forall_impl; [|exact Hold]. simpl. intros; lia.
    + constructor; [lia|constructor].
Qed.

(** A booking request leaves the store as it was or saves one changed copy
    of a stored document. *)
Lemma bookTreatment_store_cases (d : Store Z) authorization req :
  db (handle (Server.bookTreatment authorization req) d) = d \/
  exists u, db (handle (Server.bookTreatment authorization req) d) =
            mkStore (replaceById u (users d)) (treatments d) (nextId d).
Proof.
  destruct (userByToken d authorization) as [u|] eqn:Huser.
  - unfold Server.bookTreatment.
    rewrite (authenticateUser_known d authorization _ Huser).
    unfold handle, async, try_catch, bind, User_findById, User_findOne,
      Treatment_findById, getDb, ret. simpl.
    destruct (Server.BookBody.treatmentId req) as [|raw|i]; simpl;
      (destruct (find (fun x => Nat.eqb (User._id x) (User._id u)) (users d));
       [|now left]); try (now left).
    destruct (find _ (treatments d)); [|now left].
    right. eexists. reflexivity.
  - left. unfold Server.bookTreatment.
    rewrite authenticateUser_unknown; [reflexivity|].
    intros u Hu ->. unfold userByToken in Huser.
    apply (find_none _ _ Huser) in Hu. simpl in Hu. now rewrite String.eqb_refl in Hu.
Qed.

Lemma bookTreatment_consistent (d : Store Z) authorization req :
  consistent d -> consistent (db (handle (Server.bookTreatment authorization req) d)).
Proof.
  intros [Hwf Hold].
  destruct (bookTreatment_store_cases d authorization req) as [->|(u & ->)]; [now split|].
  unfold consistent, wellFormed in *. simpl. split.
  - now rewrite replaceById_ids.
  - rewrite Forall_forall in *. intros x Hx.
    assert (Hid : In (User._id x) (map (@User._id Z) (users d))).
    { rewrite <- (replaceById_ids u). now apply in_map. }
    apply in_map_iff in Hid. destruct Hid as (y & <- & Hy). now apply Hold.
Qed.

(** ** Registration, then login *)

(** With server.js: after a valid registration, a login with the same
    email and password is answered 200 with the accessToken the registration
    returned. *)
Lemma login_after_register {bcrypt : Bcrypt} (d : Store Z) rnd req phone :
  bcryptFormat bcrypt ->
  (forall data salt, compareSync data (hashSync data salt) = true) ->
  15 <= String.length (Server.RegisterBody.password req) <= 20 ->
  acceptedBySchema d req phone ->
  let d' := db (handle (Server.register rnd req) d) in
  let w := handle (Server.login
                     (Server.LoginBody.mk (Server.RegisterBody.email req)
                        (Password.Text (Server.RegisterBody.password req)))) d' in
  option_map body (sent w) =
    option_map body (sent (handle (Server.register rnd req) d)) /\
  option_map status (sent w) = Some 200 /\
  db w = d'.
Proof.
  intros Hformat Hcompare Hrange Haccepted d' w. unfold w, d'.
  rewrite (@register_accepted bcrypt d rnd req phone Hformat Hrange Haccepted).
  rewrite login_cases. simpl.
  unfold userByEmail. simpl. rewrite find_app.
  destruct Haccepted as (_ & _ & _ & _ & Hnew & _).
  rewrite find_absent.
  - simpl. rewrite String.eqb_refl.
    change (User.password (registered d rnd req phone))
      with (hashSync (Server.RegisterBody.password req) (genSaltSync rnd)).
    rewrite Hcompare. repeat split.
  - intros u Hu. apply String.eqb_neq. now apply Hnew.
Qed.

(** * Further properties of the routes *)

(** ** Seeding (server.js 121-156) *)

Lemma find_name_present (name : string) (l : list Treatment.t) (t : Treatment.t) :
  find (fun x => Treatment.name x =? name) l = Some t ->
  existsb (fun x => Treatment.name x =? name) l = true.
Proof.
  intros Hfind. apply find_some in Hfind. apply existsb_exists. now exists t.
Qed.

Lemma find_name_absent (name : string) (l : list Treatment.t) :
  find (fun x => Treatment.name x =? name) l = None ->
  ~ In name (map Treatment.name l).
Proof.
  intros Hfind Hin. apply in_map_iff in Hin. destruct Hin as (t & Hname & Hin).
  apply (find_none _ _ Hfind) in Hin. simpl in Hin.
  rewrite Hname, String.eqb_refl in Hin. discriminate.
Qed.

Lemma NoDup_snoc {A} (l : list A) (x : A) :
  NoDup l -> ~ In x l -> NoDup (l ++ [x]).
Proof.
  intros Hl Hx. apply NoDup_app; [exact Hl|repeat constructor; auto|].
  intros a Ha [<-|[]]. now apply Hx.
Qed.

(** After the seeding block ran, on whatever store, the catalog holds a
    treatment of each of the four names; what the catalog held is still
    there, first and in the same order, and the users are untouched. *)
Theorem seeding_completes_catalog (d : Store Z) :
  forallb (fun name =>
             existsb (fun t => Treatment.name t =? name)
                     (treatments (Server.seeded d)))
          Server.seedTreatments = true /\
  firstn (List.length (treatments d)) (treatments (Server.seeded d)) = treatments d /\
  users (Server.seeded d) = users d.
Proof.
  unfold Server.seeded, handle, async, Server.startup, Server.createTreatments,
    try_catch, bind, Treatment_find, getDb, ret. simpl.
  seeding_cases d;
    repeat match goal with
           | E : find _ (treatments d) = Some _ |- _ => apply find_name_present in E
           end;
    rewrite <- ?app_assoc;
    (split;
     [ rewrite ?existsb_app; simpl;
       repeat match goal with
              | E : existsb _ (treatments d) = true |- _ => rewrite E; clear E
              end;
       simpl; rewrite ?orb_true_r; reflexivity
     | split; [|reflexivity];
       rewrite ?firstn_app, ?Nat.sub_diag, ?firstn_all; simpl;
       rewrite ?app_nil_r; reflexivity ]).
Qed.

(** A catalog without two treatments of one name has none after the
    seeding block ran either. *)
Theorem seeding_keeps_names_distinct (d : Store Z) :
  NoDup (map Treatment.name (treatments d)) ->
  NoDup (map Treatment.name (treatments (Server.seeded d))).
Proof.
  intros Hdistinct.
  unfold Server.seeded, handle, async, Server.startup, Server.createTreatments,
    try_catch, bind, Treatment_find, getDb, ret. simpl.
  seeding_cases d; try assumption;
    repeat match goal with
           | E : find _ (treatments d) = None |- _ => apply find_name_absent in E
           end;
    rewrite ?map_app; simpl;
    repeat (apply NoDup_snoc;
            [|rewrite ?in_app_iff; simpl; intuition discriminate]);
    assumption.
Qed.

Lemma seeding_keeps_names_distinct_witness :
  NoDup (map Treatment.name
             (treatments (Server.seeded (mkStore [anna] [Treatment.mk 0 "Hair Dye"] 2)))).
Proof.
  apply seeding_keeps_names_distinct. simpl.
  constructor; [intros []|constructor].
Defined.

(** ** Registration (server.js 177-212) *)

Lemma existsb_present {A} (f : A -> bool) (l : list A) (x : A) :
  In x l -> f x = true -> existsb f l = true.
Proof. intros Hin Hf. apply existsb_exists. now exists x. Qed.

Lemma consistent_demoStore : consistent demoStore.
Proof.
  split.
  - repeat constructor. intros [].
  - repeat constructor.
Qed.

(** With a password of 15 to 20 characters, registration is all or nothing:
    either the answer is 201 and exactly the created user is appended under
    a fresh identity, or the answer is 400 "Could not create user" and the
    store is as it was.  Nothing escapes the route. *)
Theorem register_all_or_nothing
    {bcrypt : Bcrypt} (d : Store Z) (rnd : Random) (req : Server.RegisterBody.t) :
  15 <= String.length (Server.RegisterBody.password req) <= 20 ->
  let w := handle (Server.register rnd req) d in
  rejections w = [] /\
  ((exists u,
       sent w = Some (created u) /\
       User._id u = nextId d /\
       User.bookedTreatments u = [] /\
       db w = mkStore (users d ++ [u]) (treatments d) (S (nextId d))) \/
   (exists r,
       sent w = Some r /\
       status r = 400 /\
       field "message" (body r) = Some (JStr "Could not create user") /\
       db w = d)).
Proof.
  intros Hrange w. unfold w.
  unfold handle, async, Server.register, try_catch.
  unfold bind at 1. rewrite (password_in_range _ Hrange).
  unfold ret at 1. unfold bind at 1, Server.User_create.
  destruct (Server.invalidPaths _ _);
    [destruct (Server.RegisterBody.mobilePhone req) as [z|]|]; simpl;
    try (split; [reflexivity|right; eexists; repeat split]).
  unfold User_insert, bind, getDb, putDb, ret, throw. simpl.
  destruct (existsb _ (users d)); simpl;
    [split; [reflexivity|right; eexists; repeat split]|].
  destruct (existsb _ (users d)); simpl;
    [split; [reflexivity|right; eexists; repeat split]|].
  split; [reflexivity|left]. exists (registered d rnd req z). repeat split.
Qed.

Lemma register_all_or_nothing_witness :
  option_map status
    (sent (handle (Server.register (bcrypt := demoBcrypt) demoRandom
                     (Server.RegisterBody.mk "Anna" "Berg" "anna@example.com"
                                             (Some 46700000000%Z) "sixteen letters!"))
                  demoStore)) = Some 400.
Proof.
  assert (Hrange :
            15 <= String.length
                    (Server.RegisterBody.password
                       (Server.RegisterBody.mk "Anna" "Berg" "anna@example.com"
                                               (Some 46700000000%Z) "sixteen letters!"))
               <= 20) by (simpl; lia).
  destruct (@register_all_or_nothing demoBcrypt demoStore demoRandom _ Hrange)
    as [_ [(u & Hsent & _)|(r & Hsent & Hstatus & _)]].
  - discriminate Hsent.
  - rewrite Hsent. simpl. now rewrite Hstatus.
Defined.

(** A register request whose email, or whose phone, a stored user already
    has is answered 400 "Could not create user" and changes nothing, whatever
    its other fields are. *)
Theorem register_duplicate_rejected
    {bcrypt : Bcrypt} (d : Store Z) (rnd : Random) (req : Server.RegisterBody.t)
    (u : User.t Z) :
  15 <= String.length (Server.RegisterBody.password req) <= 20 ->
  In u (users d) ->
  User.email u = Server.RegisterBody.email req \/
  Some (User.mobilePhone u) = Server.RegisterBody.mobilePhone req ->
  let w := handle (Server.register rnd req) d in
  db w = d /\
  exists r,
    sent w = Some r /\
    status r = 400 /\
    field "success" (body r) = Some (JBool false) /\
    field "message" (body r) = Some (JStr "Could not create user").
Proof.
  intros Hrange Hin Hsame w. unfold w.
  unfold handle, async, Server.register, try_catch.
  unfold bind at 1. rewrite (password_in_range _ Hrange).
  unfold ret at 1. unfold bind at 1, Server.User_create.
  destruct (Server.invalidPaths _ _);
    [destruct (Server.RegisterBody.mobilePhone req) as [phone|] eqn:Hphone|]; simpl;
    try (split; [reflexivity|eexists; repeat split]).
  unfold User_insert, bind, getDb, putDb, ret, throw. simpl.
  destruct (existsb (fun x => User.email x =? _) (users d)) eqn:Hemail; simpl;
    [split; [reflexivity|eexists; repeat split]|].
  destruct (existsb (fun x => Z.eqb _ _) (users d)) eqn:Hmobile; simpl;
    [split; [reflexivity|eexists; repeat split]|].
  exfalso. destruct Hsame as [Hsame|Hsame].
  - rewrite (existsb_present _ _ u Hin) in Hemail; [discriminate|].
    simpl. rewrite Hsame. apply String.eqb_refl.
  - injection Hsame as Hsame.
    rewrite (existsb_present _ _ u Hin) in Hmobile; [discriminate|].
    simpl. rewrite Hsame. apply Z.eqb_refl.
Qed.

Lemma register_duplicate_rejected_witness :
  db (handle (Server.register (bcrypt := demoBcrypt) demoRandom
                (Server.RegisterBody.mk "Carl" "Dahl" "carl@example.com"
                                        (Some 46701234567%Z) "sixteen letters!"))
             demoStore) = demoStore.
Proof.
  assert (Hrange :
            15 <= String.length
                    (Server.RegisterBody.password
                       (Server.RegisterBody.mk "Carl" "Dahl" "carl@example.com"
                                               (Some 46701234567%Z) "sixteen letters!"))
               <= 20) by (simpl; lia).
  exact (proj1 (@register_duplicate_rejected demoBcrypt demoStore demoRandom _ anna
                  Hrange (or_introl eq_refl) (or_intror eq_refl))).
Defined.

(** A register request that [UserSchema] refuses (a name shorter than 2 or
    longer than 30 characters, an empty email, a phone that is no Number) is
    answered 400 "Could not create user" with an [errors] object keyed by the
    refused paths, and changes nothing. *)
Theorem register_invalid_fields_rejected
    {bcrypt : Bcrypt} (d : Store Z) (rnd : Random) (req : Server.RegisterBody.t) :
  15 <= String.length (Server.RegisterBody.password req) <= 20 ->
  nameOk (Server.RegisterBody.firstName req) = false \/
  nameOk (Server.RegisterBody.lastName req) = false \/
  Server.RegisterBody.email req = "" \/
  Server.RegisterBody.mobilePhone req = None ->
  let w := handle (Server.register rnd req) d in
  let paths :=
    Server.invalidPaths req
      (hashSync (Server.RegisterBody.password req) (genSaltSync rnd)) in
  db w = d /\
  rejections w = [] /\
  paths <> [] /\
  exists r errors,
    sent w = Some r /\
    status r = 400 /\
    field "success" (body r) = Some (JBool false) /\
    field "message" (body r) = Some (JStr "Could not create user") /\
    field "errors" (body r) = Some errors /\
    keys errors = paths.
Proof.
  intros Hrange Hrefused w paths.
  assert (Hpaths : paths <> []).
  { unfold paths, Server.invalidPaths.
    destruct Hrefused as [H|[H|[H|H]]]; rewrite H; simpl;
      repeat match goal with
             | |- context [unless ?c _] => destruct c; simpl
             end;
      discriminate. }
  unfold w, handle, async, Server.register, try_catch.
  unfold bind at 1. rewrite (password_in_range _ Hrange).
  unfold ret at 1. unfold bind at 1, Server.User_create.
  fold paths. destruct paths as [|p paths']; [now elim Hpaths|]. simpl.
  repeat split; try discriminate.
  eexists. eexists. repeat split.
  simpl. f_equal. rewrite map_map. simpl. apply map_id.
Qed.

Lemma register_invalid_fields_rejected_witness :
  exists r errors,
    sent (handle (Server.register (bcrypt := demoBcrypt) demoRandom
                    (Server.RegisterBody.mk "C" "Dahl" "carl@example.com" None
                                            "sixteen letters!"))
                 demoStore) = Some r /\
    field "errors" (body r) = Some errors /\
    keys errors = ["firstName"; "mobilePhone"].
Proof.
  assert (Hrange :
            15 <= String.length
                    (Server.RegisterBody.password
                       (Server.RegisterBody.mk "C" "Dahl" "carl@example.com" None
                                               "sixteen letters!"))
               <= 20) by (simpl; lia).
  destruct (@register_invalid_fields_rejected demoBcrypt demoStore demoRandom _
              Hrange (or_introl eq_refl))
    as (_ & _ & _ & r & errors & Hsent & _ & _ & _ & Herrors & Hkeys).
  exists r, errors. repeat split; assumption.
Defined.

Lemma register_consistent_witness :
  consistent (db (handle (Server.register (bcrypt := demoBcrypt) demoRandom
                            (carl "sixteen letters!")) demoStore)).
Proof. exact (register_consistent demoRandom (carl "sixteen letters!") consistent_demoStore). Defined.

Lemma bookTreatment_consistent_witness :
  consistent (db (handle (Server.bookTreatment (Some "a1b2c3")
                            (Server.BookBody.mk (Identity.Id 3) (Some 1000%Z))) demoStore)).
Proof.
  exact (bookTreatment_consistent (Some "a1b2c3")
           (Server.BookBody.mk (Identity.Id 3) (Some 1000%Z)) consistent_demoStore).
Defined.

(** ** Registration, then the routes that use its result *)

Lemma substring_prefix (a b : string) : substring 0 (String.length a) (a ++ b) = a.
Proof.
  induction a as [|c a IH]; simpl; [now destruct b|now rewrite IH].
Qed.

Lemma fit_fit (n : nat) (s : string) : fit n (fit n s) = fit n s.
Proof.
  revert s. induction n as [|n IH]; intros s; simpl; [reflexivity|].
  destruct s; simpl; now rewrite IH.
Qed.

(** The stand-in verifies what it hashed. *)
Lemma demoBcrypt_compare data salt :
  compareSync (Bcrypt := demoBcrypt) data (hashSync (Bcrypt := demoBcrypt) data salt) = true.
Proof.
  change ((demoHash data salt =? demoHash data (substring 7 22 (demoHash data salt)))
          = true).
  assert (Hsalt : substring 7 22 (demoHash data salt) = fit 22 salt).
  { unfold demoHash. change (substring 7 22 ("$2b$10$" ++ ?x)) with (substring 0 22 x).
    rewrite <- (length_fit 22 salt) at 1. apply substring_prefix. }
  rewrite Hsalt. unfold demoHash. rewrite fit_fit. apply String.eqb_refl.
Qed.

Lemma login_after_register_witness :
  option_map status
    (sent (handle (Server.login (bcrypt := demoBcrypt)
                     (Server.LoginBody.mk "carl@example.com" (Password.Text "sixteen letters!")))
                  (db (handle (Server.register (bcrypt := demoBcrypt) demoRandom
                                 (carl "sixteen letters!")) demoStore))))
  = Some 200.
Proof.
  assert (Hrange :
            15 <= String.length (Server.RegisterBody.password (carl "sixteen letters!"))
               <= 20)
    by (simpl; lia).
  exact (proj1 (proj2 (@login_after_register demoBcrypt demoStore demoRandom
                         (carl "sixteen letters!") 46700000000%Z
                         demoBcrypt_format demoBcrypt_compare Hrange
                         (carl_accepted "sixteen letters!")))).
Defined.

(** With server.js: after a valid registration whose token no stored user
    holds, user-info under the returned token answers 200 with the document
    just created, the identity the registration returned in it. *)
Theorem register_then_userInfo
    {bcrypt : Bcrypt} (d : Store Z) (rnd : Random)
    (req : Server.RegisterBody.t) (phone : Z) :
  bcryptFormat bcrypt ->
  15 <= String.length (Server.RegisterBody.password req) <= 20 ->
  acceptedBySchema d req phone ->
  unknownToken d (Some (randomBytesHex rnd)) ->
  let w := handle (Server.register rnd req) d in
  let w' := handle (Server.userInfo (Some (randomBytesHex rnd))) (db w) in
  sent w = Some (created (registered d rnd req phone)) /\
  sent w' =
    Some (mkResponse 200
            (JObj [("success", JBool true);
                   ("message", JStr "This is your user information");
                   ("user", userJson Server.phoneJson (registered d rnd req phone))])) /\
  db w' = db w.
Proof.
  intros Hformat Hrange Haccepted Hfresh w w'. unfold w', w.
  rewrite (@register_accepted bcrypt d rnd req phone Hformat Hrange Haccepted).
  simpl db. unfold Server.userInfo.
  rewrite (@userInfo_known Z Server.phoneJson _ (Some (randomBytesHex rnd))
             (registered d rnd req phone)).
  - repeat split.
  - unfold userByToken. simpl. rewrite find_app, (hasToken_unknown Hfresh).
    simpl. now rewrite String.eqb_refl.
Qed.

Lemma register_then_userInfo_witness :
  option_map (fun r => option_map (field "email") (field "user" (body r)))
    (sent (handle (Server.userInfo (Some (randomBytesHex demoRandom)))
                  (db (handle (Server.register (bcrypt := demoBcrypt) demoRandom
                                 (carl "sixteen letters!")) demoStore))))
  = Some (Some (Some (JStr "carl@example.com"))).
Proof.
  assert (Hrange :
            15 <= String.length (Server.RegisterBody.password (carl "sixteen letters!"))
               <= 20)
    by (simpl; lia).
  assert (Hfresh : unknownToken demoStore (Some (randomBytesHex demoRandom))).
  { intros u [<-|[]]; discriminate. }
  destruct (@register_then_userInfo demoBcrypt demoStore demoRandom
              (carl "sixteen letters!") 46700000000%Z
              demoBcrypt_format Hrange (carl_accepted "sixteen letters!") Hfresh)
    as (_ & Hinfo & _).
  rewrite Hinfo. reflexivity.
Defined.

(** ** Login (server.js 214-242, part_000 226-266) *)


(** The same for part_000, whose login is guarded by the validation chain:
    a 200 answer means the request passed the chain with a string for
    password, carries the accessToken of the stored user with that email,
    and left the store as it was. *)
Theorem part000_login_returns_stored_token
    {bcrypt : Bcrypt} {validator : Validator}
    (d : Store string) (req : Part000.LoginBody.t) (r : Response) :
  sent (handle (Part000.login req) d) = Some r ->
  status r = 200 ->
  Part000.loginErrors req = [] /\
  (exists u p projection,
      userByEmail d (Part000.LoginBody.email req) = Some u /\
      Part000.LoginBody.password req = Password.Text p /\
      compareSync p (User.password u) = true /\
      field "response" (body r) = Some projection /\
      field "accessToken" projection = Some (JStr (User.accessToken u))) /\
  db (handle (Part000.login req) d) = d.
Proof.
  destruct (Part000.loginErrors req) as [|e errors] eqn:Hchain.
  - rewrite (part000_login_cases d req Hchain). simpl. intros Hsent Hstatus.
    split; [reflexivity|]. split; [|reflexivity].
    destruct (userByEmail d (Part000.LoginBody.email req)) as [u|].
    + destruct (Part000.LoginBody.password req) as [|text|p];
        try (injection Hsent as <-; discriminate).
      destruct (compareSync _ _) eqn:Hpassword; injection Hsent as <-;
        [|discriminate].
      exists u, p. eexists. repeat split. exact Hpassword.
    + injection Hsent as <-. discriminate.
  - rewrite (part000_login_invalid d req Hchain). simpl.
    intros Hsent. injection Hsent as <-. discriminate.
Qed.

Lemma part000_login_returns_stored_token_witness :
  exists r projection,
    sent (handle (Part000.login (bcrypt := demoBcrypt) (validator := demoValidator)
                    (Part000.LoginBody.mk "bea@example.com" (Password.Text "correct horse 15")))
                 demoStore000) = Some r /\
    field "response" (body r) = Some projection /\
    field "accessToken" projection = Some (JStr "d4e5f6").
Proof.
  destruct (@part000_login_returns_stored_token demoBcrypt demoValidator demoStore000
              (Part000.LoginBody.mk "bea@example.com" (Password.Text "correct horse 15"))
              _ eq_refl eq_refl)
    as (_ & (u & p & projection & Hu & _ & _ & Hresponse & Htoken) & _).
  eexists. exists projection. split; [reflexivity|]. split; [exact Hresponse|].
  injection Hu as <-. exact Htoken.
Defined.

(** ** Booking a date (part_000 292-358) *)

Lemma find_by_id_some {Phone} (u : User.t Phone) (l : list (User.t Phone)) :
  In u l -> exists u', find (fun x => Nat.eqb (User._id x) (User._id u)) l = Some u'.
Proof.
  intros Hin. destruct (find _ l) as [u'|] eqn:Hfind; [now exists u'|].
  apply (find_none _ _ Hfind) in Hin. simpl in Hin.
  now rewrite Nat.eqb_refl in Hin.
Qed.

Lemma part000_bookTreatment_found (d : Store string) authorization u req ms :
  wellFormed d ->
  userByToken d authorization = Some u ->
  Part000.BookBody.pickedDate req = Some ms ->
  forallb Part000.bookingOk (User.bookedTreatments u) = true ->
  let booking := Booking.mk None (Some (ValidDate ms)) in
  handle (Part000.bookTreatment authorization req) d =
  mkWorld (mkStore (replaceById (Part000.push u booking) (users d))
                   (treatments d) (nextId d))
          (Some (booked booking)) [].
Proof.
  intros Hwf Huser Hdate Hstored booking.
  unfold Part000.bookTreatment. rewrite (authenticateUser_known d authorization _ Huser).
  pose proof (userByToken_userById _ Hwf Huser) as Hid.
  unfold handle, async, try_catch, bind, User_findById, User_findOne, getDb, ret.
  simpl. unfold userById in Hid. rewrite Hid, Hdate. simpl.
  rewrite forallb_app, Hstored. reflexivity.
Qed.

(** In part_000 a booking with a date is answered 200 with the booking as
    it was persisted: the [booking] of the response is the record appended
    to the caller's [bookedTreatments]; the catalog is not touched. *)
Theorem part000_booking_returned_as_persisted
    (d : Store string) (authorization : option string) (u : User.t string)
    (req : Part000.BookBody.t) (ms : Z) :
  wellFormed d ->
  userByToken d authorization = Some u ->
  Part000.BookBody.pickedDate req = Some ms ->
  forallb Part000.bookingOk (User.bookedTreatments u) = true ->
  let w := handle (Part000.bookTreatment authorization req) d in
  let stored := Booking.mk None (Some (ValidDate ms)) in
  exists r u',
    sent w = Some r /\ status r = 200 /\
    field "booking" (body r) = Some (bookingJson stored) /\
    userById (db w) (User._id u) = Some u' /\
    User.bookedTreatments u' = (User.bookedTreatments u ++ [stored])%list /\
    forallb Part000.bookingOk (User.bookedTreatments u') = true /\
    treatments (db w) = treatments d.
Proof.
  intros Hwf Huser Hdate Hstored w stored. unfold w.
  rewrite (@part000_bookTreatment_found d authorization u req ms Hwf Huser Hdate Hstored).
  exists (booked stored), (Part000.push u stored). simpl.
  repeat split.
  - unfold userById. simpl. apply find_replaceById with (u := u); auto.
    + apply find_by_id; [exact Hwf|]. now apply find_some in Huser.
    + simpl. apply Nat.eqb_refl.
  - now rewrite forallb_app, Hstored.
Qed.

Lemma part000_booking_returned_as_persisted_witness :
  exists u',
    userById (db (handle (Part000.bookTreatment (Some "d4e5f6")
                            (Part000.BookBody.mk Identity.Absent (Some 1000%Z))) demoStore000)) 1
      = Some u' /\
    User.bookedTreatments u' = [Booking.mk None (Some (ValidDate 1000))].
Proof.
  assert (Hwf : wellFormed demoStore000).
  { repeat constructor. intros []. }
  destruct (@part000_booking_returned_as_persisted demoStore000 (Some "d4e5f6") bea
              (Part000.BookBody.mk Identity.Absent (Some 1000%Z)) 1000%Z
              Hwf eq_refl eq_refl eq_refl)
    as (r & u' & _ & _ & _ & Hid & Hrecords & _).
  exists u'. split; assumption.
Defined.

(** In part_000 a booking whose [pickedDate] denotes no date is answered
    500 "Failed to book treatment": the required [bookedDate] fails
    validation on save, and the store is as it was. *)
Theorem part000_booking_without_date_fails
    (d : Store string) (authorization : option string) (u : User.t string)
    (req : Part000.BookBody.t) :
  userByToken d authorization = Some u ->
  Part000.BookBody.pickedDate req = None ->
  let w := handle (Part000.bookTreatment authorization req) d in
  db w = d /\
  rejections w = [] /\
  exists r,
    sent w = Some r /\
    status r = 500 /\
    field "success" (body r) = Some (JBool false) /\
    field "message" (body r) = Some (JStr "Failed to book treatment").
Proof.
  intros Huser Hdate w. unfold w.
  unfold Part000.bookTreatment. rewrite (authenticateUser_known d authorization _ Huser).
  destruct (find_by_id_some u (users d)) as [u' Hid];
    [now apply find_some in Huser|].
  unfold handle, async, try_catch, bind, User_findById, User_findOne, getDb, ret.
  simpl. rewrite Hid, Hdate. simpl.
  rewrite forallb_app. simpl. rewrite andb_false_r. simpl.
  repeat split. eexists. repeat split.
Qed.

Lemma part000_booking_without_date_fails_witness :
  db (handle (Part000.bookTreatment (Some "d4e5f6")
                (Part000.BookBody.mk (Identity.Id 3) None)) demoStore000) = demoStore000.
Proof.
  exact (proj1 (@part000_booking_without_date_fails demoStore000 (Some "d4e5f6") bea
                  (Part000.BookBody.mk (Identity.Id 3) None) eq_refl eq_refl)).
Defined.

Lemma part000_bookedTreatment_known (d : Store string) authorization u :
  userByToken d authorization = Some u ->
  handle (Part000.bookedTreatment authorization) d =
  mkWorld d
    (Some (mkResponse 200
             (JObj [("success", JBool true);
                    ("message", JStr "Booked treatments retrieved successfully");
                    ("bookedTreatments",
                     JArr (map (fun booking =>
                                  JObj (optField "date"
                                          (option_map dateJson
                                             (Booking.bookedDate booking))))
                               (User.bookedTreatments u)))])))
    [].
Proof.
  intros Huser. unfold Part000.bookedTreatment.
  now rewrite (authenticateUser_known d authorization _ Huser).
Qed.

(** In part_000, after a booking with a date, booked-treatments lists the
    dates it listed before and then the date just booked; listing changes
    nothing. *)
Theorem part000_booking_then_listed
    (d : Store string) (authorization : option string) (u : User.t string)
    (req : Part000.BookBody.t) (ms : Z) :
  wellFormed d ->
  userByToken d authorization = Some u ->
  Part000.BookBody.pickedDate req = Some ms ->
  forallb Part000.bookingOk (User.bookedTreatments u) = true ->
  let w := handle (Part000.bookTreatment authorization req) d in
  let w' := handle (Part000.bookedTreatment authorization) (db w) in
  option_map (fun r => field "bookedTreatments" (body r)) (sent w') =
    option_map (fun r =>
                  match field "bookedTreatments" (body r) with
                  | Some (JArr dates) => Some (JArr (dates ++ [JObj [("date", JDate ms)]]))
                  | _ => None
                  end)
               (sent (handle (Part000.bookedTreatment authorization) d)) /\
  option_map status (sent w') = Some 200 /\
  db w' = db w.
Proof.
  intros Hwf Huser Hdate Hstored w w'. unfold w', w.
  rewrite (@part000_bookTreatment_found d authorization u req ms Hwf Huser Hdate Hstored).
  simpl db.
  rewrite (part000_bookedTreatment_known d authorization Huser).
  rewrite (@part000_bookedTreatment_known _ authorization
             (Part000.push u (Booking.mk None (Some (ValidDate ms))))).
  - simpl. rewrite map_app. repeat split.
  - unfold userByToken. simpl.
    apply find_replaceById with (u := u); auto.
    now apply find_some in Huser.
Qed.

Lemma part000_booking_then_listed_witness :
  option_map (fun r => field "bookedTreatments" (body r))
    (sent (handle (Part000.bookedTreatment (Some "d4e5f6"))
             (db (handle (Part000.bookTreatment (Some "d4e5f6")
                            (Part000.BookBody.mk Identity.Absent (Some 1000%Z))) demoStore000))))
  = Some (Some (JArr [JObj [("date", JDate 1000)]])).
Proof.
  assert (Hwf : wellFormed demoStore000).
  { repeat constructor. intros []. }
  destruct (@part000_booking_then_listed demoStore000 (Some "d4e5f6") bea
              (Part000.BookBody.mk Identity.Absent (Some 1000%Z)) 1000%Z
              Hwf eq_refl eq_refl eq_refl) as [Hlisted _].
  rewrite Hlisted. reflexivity.
Defined.

(** ** Registration behind the validation chain (part_000 174-223) *)

(** In part_000 a register request that any link of the validation chain
    refuses (a name outside 2 to 30 characters, an email or a phone that
    validator.js rejects, a password outside 15 to 20 characters) is answered
    400 with the chain's errors, which are not none, and the store is
    untouched. *)
Theorem part000_register_chain_stops
    {bcrypt : Bcrypt} {validator : Validator}
    (d : Store string) (rnd : Random) (req : Part000.RegisterBody.t) :
  Part000.lengthBetween 2 30 (Part000.RegisterBody.firstName req) = false \/
  Part000.lengthBetween 2 30 (Part000.RegisterBody.lastName req) = false \/
  isEmail (Part000.RegisterBody.email req) = false \/
  isMobilePhone (Part000.RegisterBody.mobilePhone req) = false \/
  Part000.lengthBetween 15 20 (Part000.RegisterBody.password req) = false ->
  let w := handle (Part000.register rnd req) d in
  db w = d /\
  rejections w = [] /\
  exists r e errors,
    sent w = Some r /\
    status r = 400 /\
    field "success" (body r) = Some (JBool false) /\
    field "errors" (body r) = Some (JArr (e :: errors)).
Proof.
  intros Hrefused w.
  assert (Herrors : Part000.registerErrors req <> []).
  { unfold Part000.registerErrors. intros Hnone.
    destruct Hrefused as [H|[H|[H|[H|H]]]]; rewrite H in Hnone;
      unfold Part000.check in Hnone;
      do 4 (apply app_eq_nil in Hnone; destruct Hnone as [Hhead Hnone];
            cbn in Hhead; try discriminate Hhead; clear Hhead);
      cbn in Hnone; discriminate Hnone. }
  unfold w, Part000.register.
  destruct (Part000.registerErrors req) as [|e errors]; [now elim Herrors|].
  simpl. repeat split. exists (mkResponse 400 (JObj [("success", JBool false);
                                                       ("errors", JArr (e :: errors))])).
  exists e, errors. repeat split.
Qed.

Lemma part000_register_chain_stops_witness :
  db (handle (Part000.register (bcrypt := demoBcrypt) (validator := demoValidator)
                demoRandom
                (Part000.RegisterBody.mk "Dan" "Ek" "not an email" "0709999999"
                                         "sixteen letters!"))
             demoStore000) = demoStore000.
Proof.
  exact (proj1 (@part000_register_chain_stops demoBcrypt demoValidator demoStore000
                  demoRandom
                  (Part000.RegisterBody.mk "Dan" "Ek" "not an email" "0709999999"
                                           "sixteen letters!")
                  (or_intror (or_intror (or_introl eq_refl))))).
Defined.

Lemma chainAccepts_no_errors {validator : Validator} (req : Part000.RegisterBody.t) :
  chainAccepts req -> Part000.registerErrors req = [].
Proof.
  intros (Hfirst & Hlast & Hemail & Hphone & Hpassword).
  unfold Part000.registerErrors. now rewrite Hfirst, Hlast, Hemail, Hphone, Hpassword.
Qed.

(** In part_000 a register request that passes the chain, that the schema
    accepts (a phone of 10 to 15 digits, a normalised email that is not
    empty) and whose normalised email and phone are new is answered 201; the
    user is stored under the normalised email, which is also the one
    returned, with the bcrypt hash as password. *)
Theorem part000_register_stores_normalized_email
    {bcrypt : Bcrypt} {validator : Validator}
    (d : Store string) (rnd : Random) (req : Part000.RegisterBody.t) :
  bcryptFormat bcrypt ->
  chainAccepts req ->
  Part000.validatePhone (Part000.RegisterBody.mobilePhone req) = true ->
  normalizeEmail (Part000.RegisterBody.email req) <> "" ->
  (forall u, In u (users d) ->
             User.email u <> normalizeEmail (Part000.RegisterBody.email req) /\
             User.mobilePhone u <> Part000.RegisterBody.mobilePhone req) ->
  let w := handle (Part000.register rnd req) d in
  let u := registered000 d rnd req in
  db w = mkStore (users d ++ [u]) (treatments d) (S (nextId d)) /\
  rejections w = [] /\
  exists r projection,
    sent w = Some r /\ status r = 201 /\
    field "response" (body r) = Some projection /\
    field "email" projection =
      Some (JStr (normalizeEmail (Part000.RegisterBody.email req))) /\
    field "accessToken" projection = Some (JStr (randomBytesHex rnd)) /\
    field "password" projection = None.
Proof.
  intros Hformat Hchain Hphone Hemail Hnew w u. unfold w.
  pose proof Hchain as (Hfirst & Hlast & _).
  assert (Hdigits : Part000.RegisterBody.mobilePhone req <> "").
  { intros Hempty. rewrite Hempty in Hphone. discriminate. }
  unfold Part000.register. rewrite (chainAccepts_no_errors Hchain).
  unfold handle, async, try_catch, bind at 1, Part000.User_create, Part000.invalidPaths.
  change (nameOk (Part000.RegisterBody.firstName req))
    with (Part000.lengthBetween 2 30 (Part000.RegisterBody.firstName req)).
  change (nameOk (Part000.RegisterBody.lastName req))
    with (Part000.lengthBetween 2 30 (Part000.RegisterBody.lastName req)).
  rewrite Hfirst, Hlast, Hphone, !eqb_empty_false;
    try assumption; try (now apply bcryptFormat_nonempty).
  simpl. unfold User_insert, bind, getDb, putDb, ret, throw. simpl.
  rewrite !existsb_absent.
  - simpl. repeat split. eexists. eexists. repeat split.
  - intros x Hx. apply String.eqb_neq. now apply Hnew.
  - intros x Hx. apply String.eqb_neq. now apply Hnew.
Qed.

Lemma part000_register_stores_normalized_email_witness :
  map (@User.email string)
      (users (db (handle (Part000.register (bcrypt := demoBcrypt)
                            (validator := demoValidator) demoRandom
                            (Part000.RegisterBody.mk "Dan" "Ek" "dan@example.com"
                                                     "0709999999" "sixteen letters!"))
                         demoStore000)))
  = ["bea@example.com"; "dan@example.com"].
Proof.
  assert (Hchain : chainAccepts (validator := demoValidator)
                     (Part000.RegisterBody.mk "Dan" "Ek" "dan@example.com"
                                              "0709999999" "sixteen letters!"))
    by (repeat split).
  assert (Hnew : forall u, In u (users demoStore000) ->
                   User.email u <> "dan@example.com" /\ User.mobilePhone u <> "0709999999").
  { intros u [<-|[]]. split; discriminate. }
  assert (Hemail : normalizeEmail (Validator := demoValidator)
                     (Part000.RegisterBody.email
                        (Part000.RegisterBody.mk "Dan" "Ek" "dan@example.com"
                                                 "0709999999" "sixteen letters!")) <> "")
    by discriminate.
  destruct (@part000_register_stores_normalized_email demoBcrypt demoValidator
              demoStore000 demoRandom
              (Part000.RegisterBody.mk "Dan" "Ek" "dan@example.com"
                                       "0709999999" "sixteen letters!")
              demoBcrypt_format Hchain eq_refl Hemail
              Hnew) as [Hstore _].
  rewrite Hstore. reflexivity.
Defined.

(** In part_000 the chain and the schema judge the phone by different
    rules: a request that passes the chain with a phone that is not 10 to 15
    digits is refused by the schema on save, answered 400 "Could not create
    user" with [mobilePhone] as the one key of [errors], and changes
    nothing. *)
Theorem part000_register_schema_refuses_phone
    {bcrypt : Bcrypt} {validator : Validator}
    (d : Store string) (rnd : Random) (req : Part000.RegisterBody.t) :
  bcryptFormat bcrypt ->
  chainAccepts req ->
  Part000.validatePhone (Part000.RegisterBody.mobilePhone req) = false ->
  normalizeEmail (Part000.RegisterBody.email req) <> "" ->
  let w := handle (Part000.register rnd req) d in
  db w = d /\
  rejections w = [] /\
  exists r errors,
    sent w = Some r /\
    status r = 400 /\
    field "message" (body r) = Some (JStr "Could not create user") /\
    field "errors" (body r) = Some errors /\
    keys errors = ["mobilePhone"].
Proof.
  intros Hformat Hchain Hphone Hemail w.
  pose proof Hchain as (Hfirst & Hlast & _).
  unfold w, Part000.register. rewrite (chainAccepts_no_errors Hchain).
  unfold handle, async, try_catch, bind at 1, Part000.User_create, Part000.invalidPaths.
  change (nameOk (Part000.RegisterBody.firstName req))
    with (Part000.lengthBetween 2 30 (Part000.RegisterBody.firstName req)).
  change (nameOk (Part000.RegisterBody.lastName req))
    with (Part000.lengthBetween 2 30 (Part000.RegisterBody.lastName req)).
  rewrite Hfirst, Hlast, Hphone, andb_false_r, !eqb_empty_false;
    try assumption; try (now apply bcryptFormat_nonempty).
  simpl. repeat split. eexists. eexists. repeat split.
Qed.

Lemma part000_register_schema_refuses_phone_witness :
  db (handle (Part000.register (bcrypt := demoBcrypt) (validator := demoValidator)
                demoRandom
                (Part000.RegisterBody.mk "Dan" "Ek" "dan@example.com" "0709999"
                                         "sixteen letters!"))
             demoStore000) = demoStore000.
Proof.
  assert (Hchain : chainAccepts (validator := demoValidator)
                     (Part000.RegisterBody.mk "Dan" "Ek" "dan@example.com"
                                              "0709999" "sixteen letters!"))
    by (repeat split).
  assert (Hemail : normalizeEmail (Validator := demoValidator)
                     (Part000.RegisterBody.email
                        (Part000.RegisterBody.mk "Dan" "Ek" "dan@example.com"
                                                 "0709999" "sixteen letters!")) <> "")
    by discriminate.
  exact (proj1 (@part000_register_schema_refuses_phone demoBcrypt demoValidator
                  demoStore000 demoRandom _ demoBcrypt_format Hchain eq_refl Hemail)).
Defined.

(** ** Booking and user-info in part_001 and the second snapshot of server.js *)

Lemma part001_authenticateUser_known (d : Part001Routes.Db) authorization u
    (next : User.t Z -> M Part001Routes.Db unit) :
  find (hasToken authorization) (Part001Routes.users d) = Some u ->
  handle (Part001Routes.authenticateUser authorization next) d = handle (next u) d.
Proof.
  intros Hfind.
  unfold handle, Part001Routes.authenticateUser, try_catch, bind,
    Part001Routes.User_findOne, getDb, ret.
  unfold async at 1. simpl. rewrite Hfind.
  pose proof (async_ok (next u) (mkWorld d None [])) as Hok.
  destruct (async (next u) (mkWorld d None [])) as [r w']. simpl in Hok. subst r.
  reflexivity.
Qed.

(** The book-treatment route of part_001 (and of the second snapshot of
    server.js) answers a successful booking with the booking as it was
    persisted: the [booking] of the response is the record appended to the
    caller's [bookedTreatments], and the catalog is not touched. *)
Theorem part001_booking_returned_as_persisted
    (d : Part001Routes.Db) (authorization : option string) (u : User.t Z)
    (t : Part001.Treatment.t) (i : ObjectId) :
  NoDup (map (@User._id Z) (Part001Routes.users d)) ->
  find (hasToken authorization) (Part001Routes.users d) = Some u ->
  find (fun x => Nat.eqb (Part001.Treatment._id x) i) (Part001Routes.treatments d)
    = Some t ->
  let w := handle (Part001Routes.bookTreatment authorization
                     (Part001Routes.BookBody.mk (Identity.Id i))) d in
  let stored := Booking.mk (Some i) None in
  exists r u',
    sent w = Some r /\ status r = 200 /\
    field "booking" (body r) = Some (bookingJson stored) /\
    find (fun x => Nat.eqb (User._id x) (User._id u)) (Part001Routes.users (db w))
      = Some u' /\
    User.bookedTreatments u' = (User.bookedTreatments u ++ [stored])%list /\
    Part001Routes.treatments (db w) = Part001Routes.treatments d.
Proof.
  intros Hwf Huser Htreatment w stored. unfold w.
  unfold Part001Routes.bookTreatment.
  rewrite (part001_authenticateUser_known d authorization _ Huser).
  pose proof (find_some _ _ Huser) as [Hin _].
  pose proof (find_by_id u _ Hwf Hin) as Hid.
  pose proof (find_some _ _ Htreatment) as [_ Hi]. apply Nat.eqb_eq in Hi.
  unfold handle, async, try_catch, bind, Part001Routes.User_findById,
    Part001Routes.User_findOne, Part001Routes.Treatment_findById,
    Part001Routes.User_save, getDb, putDb, ret. simpl.
  rewrite Hid, Htreatment. simpl. rewrite Hi.
  eexists. exists (Part001Routes.push u stored). repeat split.
  apply find_replaceById with (u := u); auto. simpl. apply Nat.eqb_refl.
Qed.

Lemma part001_booking_returned_as_persisted_witness :
  option_map (fun r => field "booking" (body r))
    (sent (handle (Part001Routes.bookTreatment (Some "a1b2c3")
                     (Part001Routes.BookBody.mk (Identity.Id 3))) demoStore001))
  = Some (Some (JObj [("treatment", JId 3)])).
Proof.
  assert (Hwf : NoDup (map (@User._id Z) (Part001Routes.users demoStore001))).
  { repeat constructor. intros []. }
  destruct (@part001_booking_returned_as_persisted demoStore001 (Some "a1b2c3") anna
              (Part001.Treatment.mk 3 None (Some "Hair wash") None None) 3
              Hwf eq_refl eq_refl)
    as (r & u' & Hsent & _ & Hbooking & _).
  exact (eq_trans (f_equal (option_map (fun r => field "booking" (body r))) Hsent)
                  (f_equal Some Hbooking)).
Defined.

(** The same route on a treatment identity that names no treatment of the
    catalog: the store is as it was; the answer is 404 when the identity is
    absent or casts to an ObjectId, and 500 "Failed to book treatment" when
    it does not cast (the query rejects with a CastError). *)
Theorem part001_booking_unknown_treatment_not_found
    (d : Part001Routes.Db) (authorization : option string) (u : User.t Z)
    (req : Part001Routes.BookBody.t) :
  find (hasToken authorization) (Part001Routes.users d) = Some u ->
  (forall t, In t (Part001Routes.treatments d) ->
             Part001Routes.BookBody.treatmentId req
               <> Identity.Id (Part001.Treatment._id t)) ->
  let w := handle (Part001Routes.bookTreatment authorization req) d in
  db w = d /\
  rejections w = [] /\
  (castable (Part001Routes.BookBody.treatmentId req) -> sent w = Some notFound) /\
  (forall raw,
      Part001Routes.BookBody.treatmentId req = Identity.Malformed raw ->
      exists r,
        sent w = Some r /\
        status r = 500 /\
        field "success" (body r) = Some (JBool false) /\
        field "message" (body r) = Some (JStr "Failed to book treatment")).
Proof.
  intros Huser Habsent w. unfold w.
  unfold Part001Routes.bookTreatment.
  rewrite (part001_authenticateUser_known d authorization _ Huser).
  unfold handle, async, try_catch, bind, Part001Routes.User_findById,
    Part001Routes.User_findOne, Part001Routes.Treatment_findById, getDb, ret. simpl.
  destruct (Part001Routes.BookBody.treatmentId req) as [|raw|i] eqn:Hid; simpl.
  - destruct (find (fun x => Nat.eqb (User._id x) (User._id u)) (Part001Routes.users d));
      simpl; repeat split; intros; discriminate.
  - destruct (find (fun x => Nat.eqb (User._id x) (User._id u)) (Part001Routes.users d));
      simpl; repeat split;
      try (intros Hcast; now elim (Hcast raw));
      intros raw' _; eexists; repeat split.
  - assert (Hnone : find (fun t => Nat.eqb (Part001.Treatment._id t) i)
                         (Part001Routes.treatments d) = None).
    { apply find_absent. intros t Ht.
      destruct (Nat.eqb_spec (Part001.Treatment._id t) i) as [E|]; [|reflexivity].
      exfalso. apply (Habsent t Ht). now rewrite E. }
    rewrite Hnone.
    destruct (find (fun x => Nat.eqb (User._id x) (User._id u)) (Part001Routes.users d));
      simpl; repeat split; intros; discriminate.
Qed.

Lemma part001_booking_unknown_treatment_not_found_witness :
  sent (handle (Part001Routes.bookTreatment (Some "a1b2c3")
                  (Part001Routes.BookBody.mk (Identity.Id 9))) demoStore001)
    = Some notFound /\
  option_map status
    (sent (handle (Part001Routes.bookTreatment (Some "a1b2c3")
                     (Part001Routes.BookBody.mk (Identity.Malformed "abc")))
                  demoStore001)) = Some 500.
Proof.
  split.
  - apply (@part001_booking_unknown_treatment_not_found demoStore001 (Some "a1b2c3") anna
             (Part001Routes.BookBody.mk (Identity.Id 9)) eq_refl).
    + intros t [<-|[<-|[<-|[<-|[]]]]]; discriminate.
    + intros raw. discriminate.
  - destruct (@part001_booking_unknown_treatment_not_found demoStore001 (Some "a1b2c3")
                anna (Part001Routes.BookBody.mk (Identity.Malformed "abc")) eq_refl)
      as (_ & _ & _ & Hmalformed).
    + intros t _. discriminate.
    + destruct (Hmalformed "abc" eq_refl) as (r & Hsent & Hstatus & _).
      rewrite Hsent. simpl. now rewrite Hstatus.
Defined.

(** The user-info route of part_001 gives away nothing of the stored
    document: whatever the store and the header, the answer is the fixed
    [secret] message when a user holds the token and the 401 otherwise, and
    the store is not written. *)
Theorem part001_userInfo_answers (d : Part001Routes.Db) (authorization : option string) :
  let w := handle (Part001Routes.userInfo authorization) d in
  db w = d /\
  rejections w = [] /\
  exists r,
    sent w = Some r /\
    (status r = 200 <->
     exists u, In u (Part001Routes.users d) /\
               authorization = Some (User.accessToken u)) /\
    (status r = 200 ->
     body r = JObj [("secret", JStr "This is your user information")]) /\
    (status r <> 200 -> r = unauthenticated).
Proof.
  unfold handle, async, Part001Routes.userInfo, try_catch, bind,
    Part001Routes.User_findOne, getDb, ret. simpl.
  destruct (find (hasToken authorization) (Part001Routes.users d)) as [u|] eqn:Hfind;
    simpl; repeat split; eexists; (split; [reflexivity|]); simpl.
  - apply find_some in Hfind. destruct Hfind as [Hin Htoken].
    destruct authorization as [token|]; [|discriminate]. simpl in Htoken.
    apply String.eqb_eq in Htoken. subst token.
    repeat split; try reflexivity.
    + intros _. now exists u.
    + intros H. now elim H.
  - repeat split; try discriminate.
    intros (u & Hin & ->).
    apply (find_none _ _ Hfind) in Hin. simpl in Hin.
    now rewrite String.eqb_refl in Hin.
Qed.

(** ** What the booking route leaves alone (server.js 267-308) *)

Lemma grownFrom_same {Phone} (l : list (User.t Phone)) : Forall2 grownFrom l l.
Proof.
  induction l as [|x l IH]; constructor; [|exact IH].
  split; [reflexivity|]. exists []. now rewrite app_nil_r.
Qed.

Lemma grownFrom_replaceById (u : User.t Z) booking (l : list (User.t Z)) :
  find (fun x => Nat.eqb (User._id x) (User._id u)) l = Some u ->
  Forall2 grownFrom l (replaceById (Server.push u booking) l).
Proof.
  induction l as [|x l IH]; simpl; [discriminate|].
  destruct (Nat.eqb (User._id x) (User._id u)) eqn:Hid; intros Hfind.
  - injection Hfind as ->. constructor; [|apply grownFrom_same].
    split; [reflexivity|]. now exists [Server.castBooking booking].
  - constructor; [|now apply IH].
    split; [reflexivity|]. exists []. now rewrite app_nil_r.
Qed.

(** Whatever the request, the book-treatment route of server.js adds and
    removes no user, changes no identity, name, email, phone, password hash or
    accessToken, and takes no booking away: every stored user is as before
    but for bookings added at the end; the catalog is untouched. *)
Theorem booking_only_appends
    (d : Store Z) (authorization : option string) (req : Server.BookBody.t) :
  let w := handle (Server.bookTreatment authorization req) d in
  Forall2 grownFrom (users d) (users (db w)) /\
  treatments (db w) = treatments d /\
  nextId (db w) = nextId d.
Proof.
  destruct (userByToken d authorization) as [u|] eqn:Huser.
  - unfold Server.bookTreatment.
    rewrite (authenticateUser_known d authorization _ Huser).
    unfold handle, async, try_catch, bind, User_findById, User_findOne,
      Treatment_findById, getDb, ret. simpl.
    destruct (Server.BookBody.treatmentId req) as [|raw|i]; simpl;
      (destruct (find (fun x => Nat.eqb (User._id x) (User._id u)) (users d))
         as [u'|] eqn:Hid; [|simpl; repeat split; apply grownFrom_same]);
      try (simpl; repeat split; apply grownFrom_same).
    destruct (find _ (treatments d));
      simpl; repeat split; try apply grownFrom_same.
    apply grownFrom_replaceById.
    pose proof (find_some _ _ Hid) as [_ Hsame]. apply Nat.eqb_eq in Hsame.
    now rewrite Hsame.
  - unfold Server.bookTreatment.
    rewrite authenticateUser_unknown.
    + simpl. repeat split. apply grownFrom_same.
    + intros u Hu ->. unfold userByToken in Huser.
      apply (find_none _ _ Huser) in Hu. simpl in Hu.
      now rewrite String.eqb_refl in Hu.
Qed.

Lemma register_wrong_length_answer_witness :
  sent (handle (Server.register (bcrypt := demoBcrypt) demoRandom
                  (Server.RegisterBody.mk "C" "" "" None "short")) demoStore)
  = Some passwordLength.
Proof.
  apply register_wrong_length_answer. simpl. lia.
Defined.

(** ** A treatment identity that does not cast (server.js 267-308) *)

(** In server.js a booking by an authenticated user whose [treatmentId]
    does not cast to an ObjectId is answered 500 "Failed to book treatment":
    [Treatment.findById] rejects, the [catch] answers, and the store is as it
    was. *)
Theorem booking_malformed_treatment_fails
    (d : Store Z) (authorization : option string) (u : User.t Z)
    (req : Server.BookBody.t) (raw : string) :
  userByToken d authorization = Some u ->
  Server.BookBody.treatmentId req = Identity.Malformed raw ->
  let w := handle (Server.bookTreatment authorization req) d in
  db w = d /\
  rejections w = [] /\
  exists r,
    sent w = Some r /\
    status r = 500 /\
    field "success" (body r) = Some (JBool false) /\
    field "message" (body r) = Some (JStr "Failed to book treatment").
Proof.
  intros Huser Hraw w. unfold w.
  rewrite (bookTreatment_malformed d authorization req Huser Hraw). simpl.
  repeat split. eexists. repeat split.
Qed.

Lemma booking_malformed_treatment_fails_witness :
  option_map status
    (sent (handle (Server.bookTreatment (Some "a1b2c3")
                     (Server.BookBody.mk (Identity.Malformed "abc") (Some 1000%Z)))
                  demoStore)) = Some 500 /\
  db (handle (Server.bookTreatment (Some "a1b2c3")
                (Server.BookBody.mk (Identity.Malformed "abc") (Some 1000%Z)))
             demoStore) = demoStore.
Proof.
  destruct (@booking_malformed_treatment_fails demoStore (Some "a1b2c3") anna
              (Server.BookBody.mk (Identity.Malformed "abc") (Some 1000%Z)) "abc"
              eq_refl eq_refl) as (Hdb & _ & r & Hsent & Hstatus & _).
  split; [|exact Hdb].
  rewrite Hsent. simpl. now rewrite Hstatus.
Defined.
